(** * A shallow embedding of the esssans I(Q) reduction core

    The modules [i_of_q.py] and [normalization.py] are written against scipp.
    We model the parts of scipp they use:
    - a [Var] (scipp [Variable]) holds named sizes, row-major values and
      optional variances; numbers are rationals (the float arithmetic of the
      code read as exact arithmetic);
    - a [DataArray] holds a dense [Var] or binned (event) data, coordinates
      and masks;
    - Python exceptions are the [Err] case of [result]. *)

From Stdlib Require Import QArith Qabs List String Bool Arith Lia Permutation.
Import ListNotations.
Open Scope list_scope.
Open Scope nat_scope.

(** ** Errors and results *)

Inductive PyErr :=
| DimensionError   (* scipp: incompatible dims or shapes *)
| VariancesError   (* scipp: broadcasting an operand that has variances *)
| DatasetError     (* scipp: mismatching coordinates *)
| KeyError         (* Python: missing key, pop from an empty set *)
| ValueError
| IndexError
| AttributeError   (* Python: e.g. [None.squeeze()] *)
| Unmodelled.      (* an operation outside this embedding *)

Inductive result (A : Type) : Type :=
| Ok (a : A)
| Err (e : PyErr).
Arguments Ok {A} a.
Arguments Err {A} e.

Definition bind {A B} (r : result A) (k : A -> result B) : result B :=
  match r with Ok a => k a | Err e => Err e end.

Notation "x <- r ;; k" := (bind r (fun x => k))
  (at level 61, r at next level, right associativity).

Fixpoint mapM {A B} (f : A -> result B) (l : list A) : result (list B) :=
  match l with
  | [] => Ok []
  | x :: xs => y <- f x ;; ys <- mapM f xs ;; Ok (y :: ys)
  end.

(** ** Sizes and row-major indexing *)

Definition sizes := list (string * nat).

Definition dim_names (sz : sizes) : list string := map fst sz.

Definition volume (sz : sizes) : nat := fold_right (fun p acc => snd p * acc) 1 sz.

Fixpoint sizes_eqb (a b : sizes) : bool :=
  match a, b with
  | [], [] => true
  | (d, n) :: a', (e, m) :: b' => String.eqb d e && Nat.eqb n m && sizes_eqb a' b'
  | _, _ => false
  end.

Definition mem (s : string) (l : list string) : bool := existsb (String.eqb s) l.

Fixpoint assoc {A} (k : string) (l : list (string * A)) : option A :=
  match l with
  | [] => None
  | (k', v) :: l' => if String.eqb k k' then Some v else assoc k l'
  end.

(** Decoding a flat row-major index into a multi-index and back. *)
Fixpoint decode (ns : list nat) (i : nat) : list nat :=
  match ns with
  | [] => []
  | n :: rest =>
      let v := fold_right Nat.mul 1 rest in (i / v) :: decode rest (i mod v)
  end.

Fixpoint encode (ns : list nat) (idx : list nat) : nat :=
  match ns, idx with
  | n :: rest, k :: idx' => k * fold_right Nat.mul 1 rest + encode rest idx'
  | _, _ => 0
  end.

(** ** Variables *)

Record Var := mkVar {
  dims : sizes;
  values : list Q;
  variances : option (list Q)
}.

Definition var_values (v : Var) : Var := mkVar (dims v) (values v) None.

Fixpoint list_identical (a b : list Q) : bool :=
  match a, b with
  | [], [] => true
  | x :: a', y :: b' => Qeq_bool x y && list_identical a' b'
  | _, _ => false
  end.

(** [sc.identical]: same sizes, values and variances. *)
Definition var_identical (a b : Var) : bool :=
  sizes_eqb (dims a) (dims b) && list_identical (values a) (values b) &&
  match variances a, variances b with
  | None, None => true
  | Some va, Some vb => list_identical va vb
  | _, _ => false
  end.

(** Broadcasting [x] to the sizes [sz]: only a 0-d operand is broadcast,
    and scipp refuses to broadcast an operand that carries variances. *)
Definition broadcast (x : Var) (sz : sizes) : result Var :=
  if sizes_eqb (dims x) sz then Ok x
  else match dims x, values x with
       | [], [v] =>
           match variances x with
           | Some _ => Err VariancesError
           | None => Ok (mkVar sz (repeat v (volume sz)) None)
           end
       | _, _ => Err Unmodelled
       end.

Definition merged_sizes (a b : sizes) : result sizes :=
  if sizes_eqb a b then Ok a
  else match a, b with
       | [], _ => Ok b
       | _, [] => Ok a
       | _, _ => Err Unmodelled  (* general broadcasting is not modelled *)
       end.

(** An elementwise arithmetic operation with its variance propagation when
    both, only the left or only the right operand has variances. *)
Record BinOp := {
  op_val : Q -> Q -> Q;
  op_var_ab : Q -> Q -> Q -> Q -> Q;
  op_var_a : Q -> Q -> Q -> Q;
  op_var_b : Q -> Q -> Q -> Q
}.

Definition Sub : BinOp := {|
  op_val := Qminus;
  op_var_ab := fun _ _ va vb => (va + vb)%Q;
  op_var_a := fun _ _ va => va;
  op_var_b := fun _ _ vb => vb |}.

Definition Mul : BinOp := {|
  op_val := Qmult;
  op_var_ab := fun a b va vb => (va * (b * b) + vb * (a * a))%Q;
  op_var_a := fun _ b va => (va * (b * b))%Q;
  op_var_b := fun a _ vb => (vb * (a * a))%Q |}.

Definition Div : BinOp := {|
  op_val := Qdiv;
  op_var_ab := fun a b va vb => ((va + vb * (a * a) / (b * b)) / (b * b))%Q;
  op_var_a := fun _ b va => (va / (b * b))%Q;
  op_var_b := fun a b vb => (vb * (a * a) / (b * b * (b * b)))%Q |}.

Definition zip_with {A B C} (f : A -> B -> C) (l1 : list A) (l2 : list B) : list C :=
  map (fun p => f (fst p) (snd p)) (combine l1 l2).

Definition var_binop (o : BinOp) (a b : Var) : result Var :=
  sz <- merged_sizes (dims a) (dims b) ;;
  a' <- broadcast a sz ;;
  b' <- broadcast b sz ;;
  let xs := values a' in
  let ys := values b' in
  Ok (mkVar sz (zip_with (op_val o) xs ys)
        match variances a', variances b' with
        | Some va, Some vb =>
            Some (map (fun p => op_var_ab o (fst (fst p)) (snd (fst p))
                                   (fst (snd p)) (snd (snd p)))
                      (combine (combine xs ys) (combine va vb)))
        | Some va, None =>
            Some (zip_with (fun p v => op_var_a o (fst p) (snd p) v) (combine xs ys) va)
        | None, Some vb =>
            Some (zip_with (fun p v => op_var_b o (fst p) (snd p) v) (combine xs ys) vb)
        | None, None => None
        end).

(** ** Events, data arrays *)

(** One event: its coordinates (e.g. [Q], [wavelength]) and its weight with
    the weight's variance. *)
Record Event := mkEvent {
  ev_coords : list (string * Q);
  ev_w : Q;
  ev_var : Q
}.

(** Data of a DataArray: dense, or binned: row-major bins over [sizes],
    each bin a list of events. *)
Inductive Payload :=
| Dense (v : Var)
| Binned (sz : sizes) (cells : list (list Event)).

Record Mask := mkMask { mdims : sizes; mvals : list bool }.

Record DataArray := mkDA {
  data : Payload;
  coords : list (string * Var);
  masks : list (string * Mask)
}.

Definition da_dims (d : DataArray) : sizes :=
  match data d with Dense v => dims v | Binned sz _ => sz end.

(** [da.bins is not None] *)
Definition is_binned (d : DataArray) : bool :=
  match data d with Binned _ _ => true | Dense _ => false end.

(** [da.variances is not None] *)
Definition has_variances (d : DataArray) : bool :=
  match data d with Dense v => match variances v with Some _ => true | None => false end
                  | Binned _ _ => false end.

Definition coord (d : DataArray) (k : string) : result Var :=
  match assoc k (coords d) with Some v => Ok v | None => Err KeyError end.

(** Coordinates of a binary operation: shared names must be identical,
    the result has the union. *)
Definition merge_coords (ca cb : list (string * Var)) : result (list (string * Var)) :=
  if forallb (fun kv => match assoc (fst kv) ca with
                        | Some v => var_identical v (snd kv)
                        | None => true end) cb
  then Ok (ca ++ filter (fun kv => negb (mem (fst kv) (map fst ca))) cb)
  else Err DatasetError.

(** Masks of a binary operation: union, masks of the same name are or-ed. *)
Definition merge_masks (ma mb : list (string * Mask)) : result (list (string * Mask)) :=
  ma' <- mapM (fun kv =>
            match assoc (fst kv) mb with
            | None => Ok kv
            | Some m => if sizes_eqb (mdims (snd kv)) (mdims m)
                        then Ok (fst kv, mkMask (mdims m) (zip_with orb (mvals (snd kv)) (mvals m)))
                        else Err DimensionError
            end) ma ;;
  Ok (ma' ++ filter (fun kv => negb (mem (fst kv) (map fst ma))) mb).

(** Arithmetic between two dense data arrays. *)
Definition da_binop (o : BinOp) (a b : DataArray) : result DataArray :=
  match data a, data b with
  | Dense va, Dense vb =>
      v <- var_binop o va vb ;;
      cs <- merge_coords (coords a) (coords b) ;;
      ms <- merge_masks (masks a) (masks b) ;;
      Ok (mkDA (Dense v) cs ms)
  | _, _ => Err Unmodelled
  end.

Definition da_sub := da_binop Sub.
Definition da_mul := da_binop Mul.
Definition da_div := da_binop Div.

(** [sc.values(da)] *)
Definition da_values (d : DataArray) : DataArray :=
  match data d with
  | Dense v => mkDA (Dense (var_values v)) (coords d) (masks d)
  | Binned _ _ => d
  end.

(** [da.bins.sum()] and [da.hist()] without arguments: the events of each
    bin are summed into one dense element. *)
Definition sum_w (es : list Event) : Q := fold_right (fun e acc => (ev_w e + acc)%Q) 0%Q es.
Definition sum_var (es : list Event) : Q := fold_right (fun e acc => (ev_var e + acc)%Q) 0%Q es.

Definition bins_sum (d : DataArray) : DataArray :=
  match data d with
  | Binned sz cells =>
      mkDA (Dense (mkVar sz (map sum_w cells) (Some (map sum_var cells)))) (coords d) (masks d)
  | Dense _ => d
  end.

Definition mapi {A B} (f : nat -> A -> B) (l : list A) : list B :=
  map (fun p => f (fst p) (snd p)) (combine (seq 0 (List.length l)) l).

(** [var.dim]: the single dimension of a 1-d variable. *)
Definition var_dim (v : Var) : result string :=
  match dims v with [(d, _)] => Ok d | _ => Err DimensionError end.

(** ** [sc.lookup] of a histogram *)

(** The bin [k] with [e_k <= x < e_(k+1)]. *)
Fixpoint find_bin (edges : list Q) (x : Q) : option nat :=
  match edges with
  | e0 :: ((e1 :: _) as rest) =>
      if Qle_bool e0 x && negb (Qle_bool e1 x) then Some 0
      else option_map S (find_bin rest x)
  | _ => None
  end.

Definition ev_coord (e : Event) (k : string) : result Q :=
  match assoc k (ev_coords e) with Some q => Ok q | None => Err KeyError end.

Section Normalization.

(** The value [sc.lookup] returns outside the histogram's range (NaN for
    floats, which has no rational counterpart). *)
Variable lookup_fill : Q.

(** The flat index, among the positions of [sz], of the position of
    element [i] of [sz] reduced to the dims kept by [keep]. *)
Definition project (sz : sizes) (keep : string -> bool) (i : nat) : nat :=
  let kept := filter (fun p => keep (fst (fst p))) (combine sz (decode (map snd sz) i)) in
  encode (map (fun p => snd (fst p)) kept) (map snd kept).

(** Element [i] of the dims [fd] is masked by [m]: a mask over some of the
    dims of [fd], in their order, is broadcast to [fd]. *)
Definition mask_at (fd : sizes) (m : Mask) : result (nat -> bool) :=
  let keep := fun d => mem d (dim_names (mdims m)) in
  if sizes_eqb (filter (fun p => keep (fst p)) fd) (mdims m)
  then Ok (fun i => nth (project fd keep i) (mvals m) false)
  else Err Unmodelled.

(** The union of the masks [ms] of data with dims [fd]. *)
Definition lookup_masked (fd : sizes) (ms : list (string * Mask)) : result (nat -> bool) :=
  fold_right (fun kv acc => m <- acc ;; b <- mask_at fd (snd kv) ;; Ok (fun i => m i || b i))
             (Ok (fun _ => false)) ms.

(** The value of the histogram [f] (last dim of length [n], bin-edges
    [edges], masked elements [masked]) in row [row] at the coordinate [x];
    [sc.lookup] gives the fill value outside the edges and in masked bins. *)
Definition lookup_value (f : Var) (edges : list Q) (n : nat) (masked : nat -> bool)
    (row : nat) (x : Q) : Q :=
  match find_bin edges x with
  | Some k => if masked (row * n + k) then lookup_fill else nth (row * n + k) (values f) lookup_fill
  | None => lookup_fill
  end.

(** Dividing one event by a value without variance. *)
Definition ev_div (e : Event) (d : Q) : Event :=
  mkEvent (ev_coords e) (ev_w e / d)%Q (ev_var e / (d * d))%Q.

(** [da.bins / sc.lookup(func=f, dim=dim)]: each event is divided by the
    value of [f] at the event's [dim] coordinate, in the row of [f] that
    matches the event's bin, or by the fill value where that is masked. *)
Definition bins_div_lookup (num func : DataArray) (dim : string) : result DataArray :=
  match data num, data func with
  | Binned sz cells, Dense f =>
      edges <- coord func dim ;;
      match rev (dims f) with
      | (d, n) :: _ =>
          if String.eqb d dim && sizes_eqb sz (dims f) then
            masked <- lookup_masked (dims f) (masks func) ;;
            cells' <- mapM (fun ic =>
                        mapM (fun e => x <- ev_coord e dim ;;
                                       Ok (ev_div e (lookup_value f (values edges) n masked
                                                       (fst ic / n) x)))
                             (snd ic))
                      (combine (seq 0 (List.length cells)) cells) ;;
            Ok (mkDA (Binned sz cells') (coords num) (masks num))
          else Err Unmodelled
      | [] => Err Unmodelled
      end
  | _, _ => Err Unmodelled
  end.

(** normalization.py, [normalize]. *)
Definition normalize (numerator denominator : DataArray) : result DataArray :=
  let numerator :=
    if has_variances denominator && is_binned numerator
    then bins_sum numerator   (* numerator.hist() *)
    else numerator in
  if is_binned numerator
  then bins_div_lookup numerator denominator "Q"
  else da_div numerator denominator.

End Normalization.

(** normalization.py, [transmission_fraction]. *)
Definition transmission_fraction (sample_incident_monitor sample_transmission_monitor
    direct_incident_monitor direct_transmission_monitor : DataArray) : result DataArray :=
  a <- da_div sample_transmission_monitor direct_transmission_monitor ;;
  b <- da_div direct_incident_monitor sample_incident_monitor ;;
  da_mul a b.

(** i_of_q.py, [subtract_background]. *)
Definition subtract_background (sample background : DataArray) : result DataArray :=
  let sample := if is_binned sample then bins_sum sample else sample in
  let background := if is_binned background then bins_sum background else background in
  da_sub sample background.

(** ** Solid angle *)

(** scipp.core.concepts: the entries of [obj] whose dims are disjoint from
    the reduced dims [ds]. *)
Definition reduced {A} (get_dims : A -> sizes) (obj : list (string * A)) (ds : list string)
  : list (string * A) :=
  filter (fun kv => forallb (fun d => negb (mem d ds)) (dim_names (get_dims (snd kv)))) obj.

Definition rewrap_reduced_data (prototype : DataArray) (v : Var) (dim : list string)
  : DataArray :=
  mkDA (Dense v) (reduced dims (coords prototype) dim) (reduced mdims (masks prototype) dim).

Section SolidAngle.

(** [scn.L2]: the sample-to-pixel distance, from scippneutron. *)
Variable scn_L2 : DataArray -> result Var.

(** normalization.py, [solid_angle_rectangular_approximation]. *)
Definition solid_angle_rectangular_approximation (d : DataArray) : result DataArray :=
  pixel_width <- coord d "pixel_width" ;;
  pixel_height <- coord d "pixel_height" ;;
  l2 <- scn_L2 d ;;
  num <- var_binop Mul pixel_width pixel_height ;;
  den <- var_binop Mul l2 l2 ;;
  omega <- var_binop Div num den ;;
  let ds := filter (fun n => negb (mem n (dim_names (dims omega)))) (dim_names (da_dims d)) in
  Ok (rewrap_reduced_data d omega ds).

End SolidAngle.

(** ** Monitor preprocessing *)

Inductive UncertaintyBroadcastMode := drop | upper_bound | fail.

(** In-place [a -= b]: the coordinates of [b] must agree, [a] keeps its own. *)
Definition da_isub (a b : DataArray) : result DataArray :=
  r <- da_sub a b ;;
  Ok (mkDA (data r) (coords a) (masks r)).

Section Monitor.

(** [esssans.common.mask_range], not part of the modelled modules. *)
Variable mask_range : DataArray -> DataArray -> result DataArray.
(** scipp's [DataArray.mean]. *)
Variable mean : DataArray -> result DataArray.
(** scipp's [hist(wavelength=...)] of binned data and [rebin(wavelength=...)]
    of dense data. *)
Variable hist_wavelength : DataArray -> Var -> result DataArray.
Variable rebin_wavelength : DataArray -> Var -> result DataArray.
(** [esssans.uncertainty.broadcast_with_upper_bound_variances]. *)
Variable broadcast_with_upper_bound_variances : DataArray -> sizes -> result DataArray.

(** The mask [DataArray(data=[True] over range.dim, coords={range.dim: range})];
    [True] is stored as 1. *)
Definition range_mask (non_background_range : Var) : result DataArray :=
  d <- var_dim non_background_range ;;
  Ok (mkDA (Dense (mkVar [(d, 1)] [1%Q] None)) [(d, non_background_range)] []).

(** i_of_q.py, [preprocess_monitor_data]. *)
Definition preprocess_monitor_data (monitor : DataArray) (wavelength_bins : Var)
    (non_background_range : option Var) (uncertainties : UncertaintyBroadcastMode)
  : result DataArray :=
  background <-
    match non_background_range with
    | None => Ok None
    | Some r => mask <- range_mask r ;;
                m <- mask_range monitor mask ;;
                b <- mean m ;;
                Ok (Some b)
    end ;;
  monitor <-
    (if is_binned monitor then hist_wavelength monitor wavelength_bins
     else rebin_wavelength monitor wavelength_bins) ;;
  match background with
  | None => Ok monitor
  | Some background =>
      match uncertainties with
      | drop => da_isub monitor (da_values background)
      | upper_bound =>
          b <- broadcast_with_upper_bound_variances background (da_dims monitor) ;;
          da_isub monitor b
      | fail => da_isub monitor background
      end
  end.

End Monitor.

(** ** Direct-beam resampling *)

Definition midpoints (e : list Q) : list Q :=
  zip_with (fun a b => (a + b) / 2)%Q e (tl e).



Section Resample.

(** The float NaN, which has no rational counterpart. *)
Variable nan : Q.




End Resample.

(** ** Spectrum merging *)

Inductive BinSpec := ByCount (n : nat) | ByEdges (e : list Q).

(** The Q binning: a number of bins or a 1-d variable of bin edges. *)
Inductive QBins := QCount (n : nat) | QEdges (v : Var).

(** i_of_q.py, [_to_q_bins]. *)
Definition to_q_bins (q_bins : QBins) : result (string * BinSpec) :=
  match q_bins with
  | QCount n => Ok ("Q"%string, ByCount n)
  | QEdges v => d <- var_dim v ;; Ok (d, ByEdges (values v))
  end.

Definition payload_sizes (p : Payload) : sizes :=
  match p with Binned sz _ => sz | Dense v => dims v end.

(** [da.bins.concat(ds)]: the bins of all positions along the dims [ds]
    are concatenated, in row-major order. *)

Definition bins_concat (sz : sizes) (cells : list (list Event)) (ds : list string) : Payload :=
  let keep := fun d => negb (mem d ds) in
  let ksz := filter (fun p => keep (fst p)) sz in
  Binned ksz
    (map (fun j => List.concat (map snd (filter (fun ic => Nat.eqb (project sz keep (fst ic)) j)
                                          (combine (seq 0 (List.length cells)) cells))))
         (seq 0 (volume ksz))).

Definition in_bin (edges : list Q) (k : nat) (x : Q) : bool :=
  Qle_bool (nth k edges 0%Q) x && negb (Qle_bool (nth (S k) edges 0%Q) x).

Definition bin_cell (dim : string) (edges : list Q) (c : list Event) : result (list (list Event)) :=
  xs <- mapM (fun e => x <- ev_coord e dim ;; Ok (x, e)) c ;;
  Ok (map (fun k => map snd (filter (fun p => in_bin edges k (fst p)) xs))
          (seq 0 (List.length edges - 1))).

(** [sc.squeeze]: drop every dim of length 1. *)
Definition squeeze_sizes (sz : sizes) : sizes := filter (fun p => negb (Nat.eqb (snd p) 1)) sz.

Definition squeeze (p : Payload) : Payload :=
  match p with
  | Binned sz c => Binned (squeeze_sizes sz) c
  | Dense v => Dense (mkVar (squeeze_sizes (dims v)) (values v) (variances v))
  end.

(** The extent of a concatenation operand along [dim] (1 when it lacks
    [dim]); [dim] is the outer dim of the results we concatenate. *)
Definition extent (dim : string) (sz : sizes) : result (nat * sizes) :=
  match sz with
  | (d, n) :: rest =>
      if String.eqb d dim then Ok (n, rest)
      else if mem dim (dim_names rest) then Err Unmodelled else Ok (1, sz)
  | [] => Ok (1, [])
  end.

Definition concat_variances (vs : list Var) : result (option (list Q)) :=
  if forallb (fun v => match variances v with None => true | Some _ => false end) vs
  then Ok None
  else vl <- mapM (fun v => match variances v with Some l => Ok l | None => Err VariancesError end) vs ;;
       Ok (Some (List.concat vl)).

(** [sc.concat(ps, dim)]. *)
Definition concat_payloads (ps : list Payload) (dim : string) : result Payload :=
  exts <- mapM (fun p => extent dim (payload_sizes p)) ps ;;
  match ps, exts with
  | p0 :: _, (_, rest0) :: _ =>
      if forallb (fun e => sizes_eqb (snd e) rest0) exts then
        let sz := (dim, fold_right (fun e acc => fst e + acc) 0 exts) :: rest0 in
        match p0 with
        | Binned _ _ =>
            cs <- mapM (fun p => match p with Binned _ c => Ok c | Dense _ => Err Unmodelled end) ps ;;
            Ok (Binned sz (List.concat cs))
        | Dense _ =>
            vs <- mapM (fun p => match p with Dense v => Ok v | Binned _ _ => Err Unmodelled end) ps ;;
            var <- concat_variances vs ;;
            Ok (Dense (mkVar sz (List.concat (map values vs)) var))
        end
      else Err DimensionError
  | _, _ => Err ValueError
  end.

(** [sc.collapse(v, keep)]: the 1-d slices along [keep], one per position
    of the other dims, the first of the other dims varying fastest; the
    order for three or more other dims is not modelled. *)
Fixpoint full_index (sz : sizes) (keep : string) (k : nat) (oidx : list nat) : list nat :=
  match sz with
  | [] => []
  | (d, _) :: rest =>
      if String.eqb d keep then k :: full_index rest keep k oidx
      else match oidx with
           | i :: o' => i :: full_index rest keep k o'
           | [] => 0 :: full_index rest keep k []
           end
  end.

Definition collapse (v : Var) (keep : string) : result (list Var) :=
  match assoc keep (dims v) with
  | None => Err DimensionError
  | Some nk =>
      let others := filter (fun p => negb (String.eqb (fst p) keep)) (dims v) in
      if Nat.leb 3 (List.length others) then Err Unmodelled else
      Ok (map (fun j =>
                 let oidx := rev (decode (rev (map snd others)) j) in
                 mkVar [(keep, nk)]
                   (map (fun k => nth (encode (map snd (dims v)) (full_index (dims v) keep k oidx))
                                      (values v) 0%Q)
                        (seq 0 nk))
                   None)
              (seq 0 (volume others)))
  end.

(** [var[i]] for a 1-d variable. *)
Definition var_item (v : Var) (i : nat) : result Q :=
  match nth_error (values v) i with Some q => Ok q | None => Err IndexError end.

(** [set(wavelength_bands.dims) - {'wavelength'}] *)
Definition band_dims (wavelength_bands : Var) : list string :=
  filter (fun d => negb (String.eqb d "wavelength")) (dim_names (dims wavelength_bands)).

(** The 1-d band coordinate folded to [{'band': 1, 'wavelength': n}]. *)
Definition fold_bands (wb : Var) : result Var :=
  match dims wb with
  | [(d, n)] =>
      if String.eqb d "wavelength"
      then Ok (mkVar [("band"%string, 1); ("wavelength"%string, n)] (values wb) (variances wb))
      else Err DimensionError
  | _ => Ok wb
  end.

(** Label-based slicing [da[dim, lo:hi]] of dense data along a 1-d
    coordinate: with bin edges the bins from the one containing [lo] up to
    the one containing [hi]; with points those in [lo, hi). *)
Definition count_le (x : Q) (l : list Q) : nat := List.length (filter (fun e => Qle_bool e x) l).
Definition count_lt (x : Q) (l : list Q) : nat := List.length (filter (fun e => negb (Qle_bool x e)) l).

Fixpoint dim_pos (dim : string) (sz : sizes) : option nat :=
  match sz with
  | [] => None
  | (d, _) :: rest => if String.eqb d dim then Some 0 else option_map S (dim_pos dim rest)
  end.

Definition slice_list {A} (sz : sizes) (pos a b : nat) (l : list A) : list A :=
  map snd (filter (fun p => let k := nth pos (decode (map snd sz) (fst p)) 0 in
                            Nat.leb a k && Nat.ltb k b)
                  (combine (seq 0 (List.length l)) l)).

Definition slice_sizes (sz : sizes) (pos a b : nat) : sizes :=
  mapi (fun i p => if Nat.eqb i pos then (fst p, b - a) else p) sz.

(** Slicing [a:b] along [dim]; a variable one longer along [dim] (bin
    edges) is sliced [a:b+1]. *)
Definition slice_var (v : Var) (dim : string) (n a b : nat) : Var :=
  match dim_pos dim (dims v) with
  | None => v
  | Some pos =>
      let b' := if Nat.eqb (nth pos (map snd (dims v)) 0) (S n) then S b else b in
      mkVar (slice_sizes (dims v) pos a b') (slice_list (dims v) pos a b' (values v))
            (option_map (slice_list (dims v) pos a b') (variances v))
  end.

Definition slice_mask (m : Mask) (dim : string) (n a b : nat) : Mask :=
  match dim_pos dim (mdims m) with
  | None => m
  | Some pos =>
      let b' := if Nat.eqb (nth pos (map snd (mdims m)) 0) (S n) then S b else b in
      mkMask (slice_sizes (mdims m) pos a b') (slice_list (mdims m) pos a b' (mvals m))
  end.

Definition label_slice (d : DataArray) (dim : string) (lo hi : Q) : result DataArray :=
  match data d with
  | Dense v =>
      c <- coord d dim ;;
      match dims c, assoc dim (dims v) with
      | [(cd, _)], Some n =>
          if String.eqb cd dim then
            let cv := values c in
            let ab := if Nat.eqb (List.length cv) (S n)
                      then (count_le lo cv - 1, Nat.min n (count_lt hi cv))
                      else (count_lt lo cv, count_lt hi cv) in
            let a := fst ab in
            let b := snd ab in
            Ok (mkDA (Dense (slice_var v dim n a b))
                     (map (fun kv => (fst kv, slice_var (snd kv) dim n a b)) (coords d))
                     (map (fun kv => (fst kv, slice_mask (snd kv) dim n a b)) (masks d)))
          else Err DimensionError
      | _, _ => Err DimensionError
      end
  | Binned _ _ => Err Unmodelled
  end.

(** [v.sum(ds)] for a set of dims [ds]: each dim of [ds] must be a dim
    of [v]; values and variances are summed over them. *)
Definition var_sum (v : Var) (ds : list string) : result Var :=
  if forallb (fun d => mem d (dim_names (dims v))) ds then
    let keep := fun d => negb (mem d ds) in
    let ksz := filter (fun p => keep (fst p)) (dims v) in
    let red := fun (l : list Q) =>
      map (fun j => fold_right Qplus 0%Q
                      (map snd (filter (fun ix => Nat.eqb (project (dims v) keep (fst ix)) j)
                                       (combine (seq 0 (List.length l)) l))))
          (seq 0 (volume ksz)) in
    Ok (mkVar ksz (red (values v)) (option_map red (variances v)))
  else Err DimensionError.

Section Merge.

(** scipp's edges for a bin count: [n] bins over the range of the given
    coordinate values. *)
Variable auto_edges : nat -> list Q -> list Q.
(** Python's [set.pop()]: some element of the set, [KeyError] when empty;
    the element depends on string hashing, so it is left open. *)
Variable set_pop : list string -> result string.

(** [da.bin(dim=...)] of binned data: a new inner dim [dim]. *)
Definition bin_binned (p : Payload) (dim : string) (spec : BinSpec) : result Payload :=
  match p with
  | Binned sz cells =>
      if mem dim (dim_names sz) then Err Unmodelled else
      all <- mapM (fun e => ev_coord e dim) (List.concat cells) ;;
      let edges := match spec with ByEdges e => e | ByCount n => auto_edges n all end in
      if Nat.leb 2 (List.length edges) then
        cells' <- mapM (bin_cell dim edges) cells ;;
        Ok (Binned (sz ++ [(dim, List.length edges - 1)]) (List.concat cells'))
      else Err ValueError
  | Dense _ => Err Unmodelled
  end.

(** [da.hist(qdim=spec)] of dense data: scipp histograms along the inner
    dim [h] of the coordinate [qdim], which must be a point coordinate; we
    take [h] to be the inner dim of the data, and the coordinate to have
    either the dims of the data or the one dim [h]. Each element adds its
    value (and variance) to the bin of its coordinate, in its row; [h] is
    replaced by [qdim], one element per bin. *)
Definition hist_dense (d : DataArray) (qdim : string) (spec : BinSpec) : result Var :=
  match data d with
  | Binned _ _ => Err Unmodelled
  | Dense v =>
      c <- coord d qdim ;;
      match masks d, rev (dims v) with
      | [], (h, m) :: rinit =>
          let cval : option (nat -> Q) :=
            if sizes_eqb (dims c) [(h, m)] then Some (fun i => nth (i mod m) (values c) 0%Q)
            else if sizes_eqb (dims c) (dims v) then Some (fun i => nth i (values c) 0%Q)
            else None in
          match cval with
          | None => Err Unmodelled
          | Some cv =>
              if mem qdim (dim_names rinit) then Err Unmodelled else
              let edges := match spec with ByEdges e => e | ByCount n => auto_edges n (values c) end in
              if Nat.leb 2 (List.length edges) then
                let nb := List.length edges - 1 in
                let sz := rev rinit ++ [(qdim, nb)] in
                let hist := fun (l : list Q) =>
                  map (fun j =>
                         fold_right Qplus 0%Q
                           (map (fun t => let i := j / nb * m + t in
                                          if in_bin edges (j mod nb) (cv i) then nth i l 0%Q else 0%Q)
                                (seq 0 m)))
                      (seq 0 (volume sz)) in
                Ok (mkVar sz (hist (values v)) (option_map hist (variances v)))
              else Err Unmodelled
          end
      | _, _ => Err Unmodelled
      end
  end.

(** [da.hist(qdim=spec).sum(sum_dims)] of dense data. *)
Definition hist_sum (d : DataArray) (qdim : string) (spec : BinSpec) (sum_dims : list string)
  : result Var :=
  h <- hist_dense d qdim spec ;;
  var_sum h sum_dims.

(** One iteration of the band loop of [_events_merge_spectra]. *)
Definition events_band_step (q_binned : Payload) (band_dim : string)
    (acc : result (option Payload)) (wav_range : Var) : result (option Payload) :=
  out <- acc ;;
  band <- bin_binned q_binned "wavelength" (ByEdges (values wav_range)) ;;
  let band := squeeze band in
  match out with
  | None => Ok (Some band)
  | Some o => c <- concat_payloads [o; band] band_dim ;; Ok (Some c)
  end.

(** i_of_q.py, [_events_merge_spectra]; [None] is Python's [None], returned
    when there is no band at all. *)
Definition events_merge_spectra (data_q : DataArray) (q_bins : QBins)
    (final_dims : list string) (wavelength_bands : option Var) : result (option Payload) :=
  match data data_q with
  | Binned sz cells =>
      let q_all_pixels :=
        bins_concat sz cells (filter (fun d => negb (mem d final_dims)) (dim_names sz)) in
      edges <- to_q_bins q_bins ;;
      q_binned <- bin_binned q_all_pixels (fst edges) (snd edges) ;;
      match wavelength_bands with
      | None => Ok (Some q_binned)
      | Some wb =>
          band_dim <- set_pop (band_dims wb) ;;
          ranges <- collapse wb "wavelength" ;;
          fold_left (events_band_step q_binned band_dim) ranges (Ok None)
      end
  | Dense _ => Err Unmodelled
  end.

(** i_of_q.py, [_dense_merge_spectra]. *)
Definition dense_merge_spectra (data_q : DataArray) (q_bins : QBins)
    (final_dims : list string) (wavelength_bands : option Var) : result Payload :=
  let sum_dims := filter (fun d => negb (mem d final_dims)) (dim_names (da_dims data_q)) in
  edges <- to_q_bins q_bins ;;
  match wavelength_bands with
  | None => v <- hist_sum data_q (fst edges) (snd edges) sum_dims ;; Ok (Dense v)
  | Some wb =>
      band_dim <- set_pop (band_dims wb) ;;
      ranges <- collapse wb "wavelength" ;;
      bands <- mapM (fun wav_range =>
                       lo <- var_item wav_range 0 ;;
                       hi <- var_item wav_range 1 ;;
                       band <- label_slice data_q "wavelength" lo hi ;;
                       v <- hist_sum band (fst edges) (snd edges) sum_dims ;;
                       Ok (Dense v))
                    ranges ;;
      concat_payloads bands band_dim
  end.

(** i_of_q.py, [merge_spectra] (the data of the result; its coordinates
    are not tracked). *)
Definition merge_spectra (data_q : DataArray) (q_bins : QBins)
    (wavelength_bands : option Var) (final_dims : option (list string)) : result Payload :=
  let final_dims := match final_dims with None => ["Q"%string] | Some f => f end in
  wavelength_bands <-
    match wavelength_bands with
    | None => Ok None
    | Some wb => if Nat.eqb (List.length (dims wb)) 1
                 then w <- fold_bands wb ;; Ok (Some w)
                 else Ok (Some wb)
    end ;;
  out <-
    (if is_binned data_q then
       o <- events_merge_spectra data_q q_bins final_dims wavelength_bands ;;
       match o with Some p => Ok p | None => Err AttributeError end
     else dense_merge_spectra data_q q_bins final_dims wavelength_bands) ;;
  Ok (squeeze out).

End Merge.

(** ** The wavelength term and the denominator *)

(** [d[k] = v] on an association list: the entry is replaced in place, or
    appended when [k] is new. *)
Fixpoint assoc_set {A} (k : string) (v : A) (l : list (string * A)) : list (string * A) :=
  match l with
  | [] => [(k, v)]
  | (k', v') :: l' => if String.eqb k k' then (k', v) :: l' else (k', v') :: assoc_set k v l'
  end.

(** [sc.midpoints(x)] of a 1-d variable along [x.dim]. *)
Definition var_midpoints (x : Var) : result Var :=
  d <- var_dim x ;;
  match variances x with
  | Some _ => Err Unmodelled
  | None =>
      if Nat.leb 2 (List.length (values x))
      then Ok (mkVar [(d, List.length (values x) - 1)] (midpoints (values x)) None)
      else Err Unmodelled
  end.

(** [da.coords[k] = c] for a coordinate of at most one dim: that dim must
    be a dim of [da], with the same length or one more (bin edges). *)
Definition set_coord (d : DataArray) (k : string) (c : Var) : result DataArray :=
  match dims c with
  | [] | [_] =>
      if forallb (fun p => match assoc (fst p) (da_dims d) with
                           | Some n => Nat.eqb (snd p) n || Nat.eqb (snd p) (S n)
                           | None => false
                           end) (dims c)
      then Ok (mkDA (data d) (assoc_set k c (coords d)) (masks d))
      else Err DimensionError
  | _ => Err Unmodelled
  end.

Section NormTerm.

(** [esssans.uncertainty.drop_variances_if_broadcast] and
    [broadcast_with_upper_bound_variances]. *)
Variable drop_variances_if_broadcast : DataArray -> sizes -> result DataArray.
Variable broadcast_with_upper_bound_variances : DataArray -> sizes -> result DataArray.

(** normalization.py, [_broadcasters]. *)
Definition broadcasters (mode : UncertaintyBroadcastMode) : DataArray -> sizes -> result DataArray :=
  match mode with
  | drop => drop_variances_if_broadcast
  | upper_bound => broadcast_with_upper_bound_variances
  | fail => fun x _ => Ok x
  end.

(** normalization.py, [iofq_norm_wavelength_term]. *)
Definition iofq_norm_wavelength_term (incident_monitor transmission_fraction : DataArray)
    (direct_beam : option DataArray) (uncertainties : UncertaintyBroadcastMode)
  : result DataArray :=
  out <- da_mul incident_monitor transmission_fraction ;;
  out <-
    match direct_beam with
    | None => Ok out
    | Some db =>
        b <- broadcasters uncertainties out (da_dims db) ;;
        da_mul db b
    end ;;
  c <- coord out "wavelength" ;;
  m <- var_midpoints c ;;
  set_coord out "wavelength" m.

(** normalization.py, [iofq_denominator]. *)
Definition iofq_denominator (wavelength_term solid_angle : DataArray)
    (uncertainties : UncertaintyBroadcastMode) : result DataArray :=
  b <- broadcasters uncertainties wavelength_term (da_dims solid_angle) ;;
  da_mul solid_angle b.

End NormTerm.

(** ** Inputs used in statements *)

(** A denominator of ones without variances, on the numerator's sizes and
    coordinates. *)
Definition ones_denominator (v : Var) (cs : list (string * Var)) : DataArray :=
  mkDA (Dense (mkVar (dims v) (repeat 1%Q (List.length (values v))) None)) cs [].

Definition scalar (q : Q) : DataArray := mkDA (Dense (mkVar [] [q] None)) [] [].

Definition q_hist (vals : list Q) : DataArray :=
  mkDA (Dense (mkVar [("Q"%string, List.length vals)] vals None))
       [("Q"%string, mkVar [("Q"%string, S (List.length vals))]
                           (map (fun i => inject_Z (Z.of_nat i)) (seq 0 (S (List.length vals)))) None)]
       [].


(** * Properties *)

(** ** Generic lemmas *)

Lemma sizes_eqb_refl (s : sizes) : sizes_eqb s s = true.
Proof.
  induction s as [|[d n] s IH]; simpl; auto.
  rewrite String.eqb_refl, Nat.eqb_refl, IH; reflexivity.
Qed.

Lemma sizes_eqb_eq (a b : sizes) : sizes_eqb a b = true -> a = b.
Proof.
  revert b; induction a as [|[d n] a IH]; intros [|[e m] b]; simpl; try discriminate; auto.
  intros H; apply andb_prop in H as [H H3]; apply andb_prop in H as [H1 H2].
  apply String.eqb_eq in H1; apply Nat.eqb_eq in H2; subst; f_equal; auto.
Qed.

Lemma list_identical_refl (l : list Q) : list_identical l l = true.
Proof.
  induction l; simpl; auto. rewrite IHl, Qeq_bool_refl; reflexivity.
Qed.

Lemma var_identical_refl (v : Var) : var_identical v v = true.
Proof.
  destruct v as [d vs [vv|]]; unfold var_identical; simpl;
    rewrite sizes_eqb_refl, list_identical_refl; try rewrite list_identical_refl; reflexivity.
Qed.

Lemma Qmult_1_r_eq (q : Q) : (q * 1)%Q = q.
Proof. destruct q as [n d]; unfold Qmult; simpl; rewrite Z.mul_1_r, Pos.mul_1_r; reflexivity. Qed.

Lemma Qdiv_1_r_eq (q : Q) : (q / 1)%Q = q.
Proof. unfold Qdiv; apply Qmult_1_r_eq. Qed.

Lemma broadcast_same (x : Var) : broadcast x (dims x) = Ok x.
Proof. unfold broadcast; rewrite sizes_eqb_refl; reflexivity. Qed.

(** Arithmetic of two variables of the same sizes is elementwise. *)
Lemma var_binop_same_dims (o : BinOp) (a b : Var) :
  dims a = dims b ->
  exists vv, var_binop o a b = Ok (mkVar (dims a) (zip_with (op_val o) (values a) (values b)) vv).
Proof.
  intros H. unfold var_binop, merged_sizes. rewrite H, sizes_eqb_refl. simpl.
  rewrite <- H, broadcast_same, H, broadcast_same. simpl. eexists; reflexivity.
Qed.

Lemma da_binop_dense (o : BinOp) (a b r : DataArray) (va vb : Var) :
  data a = Dense va -> data b = Dense vb -> dims va = dims vb ->
  da_binop o a b = Ok r ->
  exists vv, data r = Dense (mkVar (dims va) (zip_with (op_val o) (values va) (values vb)) vv).
Proof.
  intros Ha Hb Hd Hr. unfold da_binop in Hr. rewrite Ha, Hb in Hr.
  destruct (var_binop_same_dims o va vb Hd) as [vv Hv]. rewrite Hv in Hr. simpl in Hr.
  destruct (merge_coords _ _); simpl in Hr; [|discriminate].
  destruct (merge_masks _ _); simpl in Hr; [|discriminate].
  inversion Hr; subst; simpl. eexists; reflexivity.
Qed.


Lemma bins_sum_dense (d : DataArray) :
  (if is_binned d then bins_sum d else d) = bins_sum d.
Proof. destruct d as [[v|sz c] cs ms]; reflexivity. Qed.

Lemma zip_div_ones (l : list Q) : zip_with Qdiv l (repeat 1%Q (List.length l)) = l.
Proof.
  induction l as [|x l IH]; [reflexivity|]. unfold zip_with in *; simpl.
  rewrite IH, Qdiv_1_r_eq; reflexivity.
Qed.

Lemma zip_var_div_ones (xs vs : list Q) :
  List.length vs = List.length xs ->
  zip_with (fun p v => op_var_a Div (fst p) (snd p) v)
           (combine xs (repeat 1%Q (List.length xs))) vs = vs.
Proof.
  revert vs; induction xs as [|x xs IH]; intros [|v vs] H; simpl in *; try discriminate; auto.
  unfold zip_with in *; simpl. f_equal.
  - change (1 * 1)%Q with 1%Q. apply Qdiv_1_r_eq.
  - apply IH; lia.
Qed.

Lemma assoc_in_nodup {A} (k : string) (v : A) (l : list (string * A)) :
  NoDup (map fst l) -> In (k, v) l -> assoc k l = Some v.
Proof.
  induction l as [|[k' v'] l IH]; simpl; [tauto|].
  intros Hnd [Heq|Hin]; inversion Hnd; subst.
  - inversion Heq; subst; rewrite String.eqb_refl; reflexivity.
  - destruct (String.eqb_spec k k'); subst; auto.
    exfalso; apply H1; apply in_map_iff; exists (k', v); auto.
Qed.

Lemma merge_coords_self (cs : list (string * Var)) :
  NoDup (map fst cs) -> merge_coords cs cs = Ok cs.
Proof.
  intros Hnd. unfold merge_coords.
  replace (forallb _ cs) with true.
  - replace (filter _ cs) with (@nil (string * Var)); [rewrite app_nil_r; reflexivity|].
    symmetry; rewrite (filter_ext_in _ (fun _ => false)); [apply filter_false|].
    intros [k v] Hin; simpl.
    unfold mem; replace (existsb _ _) with true; [reflexivity|]. symmetry.
    apply existsb_exists; exists k; split; [apply in_map_iff; exists (k, v); auto|apply String.eqb_refl].
  - symmetry; apply forallb_forall; intros [k v] Hin; simpl.
    rewrite (assoc_in_nodup k v cs Hnd Hin); apply var_identical_refl.
Qed.

Lemma merge_masks_nil (ms : list (string * Mask)) : merge_masks ms [] = Ok ms.
Proof.
  unfold merge_masks. induction ms as [|kv ms IH]; [reflexivity|].
  simpl in *. destruct (mapM _ ms) as [l|e]; simpl in *; [|discriminate].
  inversion IH; subst. rewrite app_nil_r; reflexivity.
Qed.

(** ** C3: the transmission fraction *)

(** C3. [transmission_fraction] returns
    (sample_transmission / direct_transmission) * (direct_incident / sample_incident),
    elementwise on monitors of equal sizes; for the scalars
    sample_inc = 100, sample_trans = 80, direct_inc = 90, direct_trans = 95 the
    value is (80/95)*(90/100), within 1e-4 of 0.7579. *)
Theorem transmission_fraction_formula :
  (forall si st di dt vsi vst vdi vdt r,
     data si = Dense vsi -> data st = Dense vst -> data di = Dense vdi -> data dt = Dense vdt ->
     dims vst = dims vdt -> dims vdi = dims vsi -> dims vst = dims vdi ->
     transmission_fraction si st di dt = Ok r ->
     exists vv, data r = Dense (mkVar (dims vst)
                  (zip_with Qmult (zip_with Qdiv (values vst) (values vdt))
                                  (zip_with Qdiv (values vdi) (values vsi))) vv))
  /\ exists r v,
       transmission_fraction (scalar 100) (scalar 80) (scalar 90) (scalar 95) = Ok r /\
       data r = Dense v /\ values v = [(80 / 95 * (90 / 100))%Q] /\
       (Qabs (nth 0 (values v) 0%Q - (7579 # 10000)) < (1 # 10000))%Q.
Proof.
  split.
  - intros si st di dt vsi vst vdi vdt r Hsi Hst Hdi Hdt H1 H2 H3 Hr.
    unfold transmission_fraction in Hr.
    destruct (da_div st dt) as [a|e] eqn:Ha; simpl in Hr; [|discriminate].
    destruct (da_div di si) as [b|e] eqn:Hb; simpl in Hr; [|discriminate].
    destruct (da_binop_dense Div st dt a vst vdt Hst Hdt H1 Ha) as [va Hva].
    destruct (da_binop_dense Div di si b vdi vsi Hdi Hsi H2 Hb) as [vb Hvb].
    destruct (da_binop_dense Mul a b r _ _ Hva Hvb ltac:(simpl; congruence) Hr) as [vv Hvv].
    exists vv; exact Hvv.
  - eexists; eexists; split; [vm_compute; reflexivity|].
    split; [reflexivity|]. split; [reflexivity|]. vm_compute; reflexivity.
Qed.

Lemma transmission_fraction_formula_witness :
  transmission_fraction (q_hist [100%Q]) (q_hist [80%Q]) (q_hist [90%Q]) (q_hist [95%Q])
    = Ok (q_hist [(80 / 95 * (90 / 100))%Q]) /\
  exists vv, data (q_hist [(80 / 95 * (90 / 100))%Q]) =
    Dense (mkVar [("Q"%string, 1)]
             (zip_with Qmult (zip_with Qdiv [80%Q] [95%Q]) (zip_with Qdiv [90%Q] [100%Q])) vv).
Proof.
  split; [vm_compute; reflexivity|].
  apply (proj1 transmission_fraction_formula (q_hist [100%Q]) (q_hist [80%Q]) (q_hist [90%Q])
           (q_hist [95%Q])
           (mkVar [("Q"%string, 1)] [100%Q] None) (mkVar [("Q"%string, 1)] [80%Q] None)
           (mkVar [("Q"%string, 1)] [90%Q] None) (mkVar [("Q"%string, 1)] [95%Q] None));
    vm_compute; reflexivity.
Defined.

(** ** C9: background subtraction *)

(** C9. [subtract_background] turns binned inputs dense by summing the
    events of each bin, then subtracts elementwise; for sample
    I(Q) = [10, 20, 30] and background [1, 2, 3] on the same three Q bins
    the result is exactly [9, 18, 27]. *)
Theorem subtract_background_elementwise :
  (forall sz cells cs ms,
     data (bins_sum (mkDA (Binned sz cells) cs ms)) =
     Dense (mkVar sz (map sum_w cells) (Some (map sum_var cells))))
  /\ (forall s b r vs vb,
        data (bins_sum s) = Dense vs -> data (bins_sum b) = Dense vb -> dims vs = dims vb ->
        subtract_background s b = Ok r ->
        exists vv, data r = Dense (mkVar (dims vs) (zip_with Qminus (values vs) (values vb)) vv))
  /\ subtract_background (q_hist [10; 20; 30]%Q) (q_hist [1; 2; 3]%Q) = Ok (q_hist [9; 18; 27]%Q).
Proof.
  split; [reflexivity|]. split.
  - intros s b r vs vb Hs Hb Hd Hr. unfold subtract_background in Hr.
    rewrite !bins_sum_dense in Hr.
    exact (da_binop_dense Sub _ _ r vs vb Hs Hb Hd Hr).
  - vm_compute; reflexivity.
Qed.

Lemma subtract_background_elementwise_witness :
  subtract_background (q_hist [5%Q]) (q_hist [2%Q]) = Ok (q_hist [3%Q]) /\
  exists vv, data (q_hist [3%Q]) =
    Dense (mkVar [("Q"%string, 1)] (zip_with Qminus [5%Q] [2%Q]) vv).
Proof.
  split; [vm_compute; reflexivity|].
  apply (proj1 (proj2 subtract_background_elementwise) (q_hist [5%Q]) (q_hist [2%Q]) (q_hist [3%Q])
           (mkVar [("Q"%string, 1)] [5%Q] None) (mkVar [("Q"%string, 1)] [2%Q] None));
    vm_compute; reflexivity.
Defined.

(** ** C7: normalizing by ones *)

(** C7. [normalize] of a dense numerator by a denominator of ones without
    variances, on the numerator's sizes and coordinates, returns the
    numerator unchanged (values, variances, coordinates and masks). *)
Theorem normalize_by_ones (lookup_fill : Q) (num : DataArray) (v : Var) :
  data num = Dense v ->
  (forall l, variances v = Some l -> List.length l = List.length (values v)) ->
  NoDup (map fst (coords num)) ->
  normalize lookup_fill num (ones_denominator v (coords num)) = Ok num.
Proof.
  intros Hd Hl Hnd. unfold normalize, ones_denominator, has_variances, is_binned; simpl.
  rewrite Hd; simpl. unfold da_div, da_binop; simpl. rewrite Hd.
  unfold var_binop, merged_sizes; simpl. rewrite sizes_eqb_refl; simpl.
  rewrite broadcast_same. unfold broadcast; simpl. rewrite sizes_eqb_refl; simpl.
  rewrite merge_coords_self by exact Hnd; simpl. rewrite merge_masks_nil; simpl.
  destruct num as [p cs ms]; simpl in *; subst p.
  destruct v as [sz vals [vs|]]; simpl in *.
  - rewrite zip_div_ones, zip_var_div_ones by (apply Hl; reflexivity). reflexivity.
  - rewrite zip_div_ones; reflexivity.
Qed.

Lemma normalize_by_ones_witness :
  data (q_hist [4%Q; 7%Q]) = Dense (mkVar [("Q"%string, 2)] [4%Q; 7%Q] None) /\
  normalize 0%Q (q_hist [4%Q; 7%Q])
    (ones_denominator (mkVar [("Q"%string, 2)] [4%Q; 7%Q] None) (coords (q_hist [4%Q; 7%Q])))
    = Ok (q_hist [4%Q; 7%Q]).
Proof.
  split; [reflexivity|].
  apply (normalize_by_ones 0%Q (q_hist [4%Q; 7%Q]) (mkVar [("Q"%string, 2)] [4%Q; 7%Q] None)).
  - reflexivity.
  - intros l H; discriminate H.
  - simpl; repeat constructor; simpl; tauto.
Defined.

(** ** C2: the event-mode division guard *)








(** ** C1: monitor preprocessing *)

Lemma zip_with_repeat (f : Q -> Q -> Q) (b : Q) (xs : list Q) :
  zip_with f xs (repeat b (List.length xs)) = map (fun x => f x b) xs.
Proof. induction xs as [|x xs IH]; [reflexivity|]. unfold zip_with in *; simpl; rewrite IH; reflexivity. Qed.

Lemma zip_with_snd (xs ys va : list Q) :
  List.length ys = List.length xs -> List.length va = List.length xs ->
  zip_with (fun (p : Q * Q) (v : Q) => v) (combine xs ys) va = va.
Proof.
  revert ys va; induction xs as [|x xs IH]; intros [|y ys] [|v va] H1 H2; simpl in *;
    try discriminate; auto.
  unfold zip_with in *; simpl; f_equal; apply IH; lia.
Qed.

(** Subtracting a 0-d value without variance from a well-formed variable. *)
Lemma var_binop_sub_scalar (vm : Var) (b : Q) :
  List.length (values vm) = volume (dims vm) ->
  (forall l, variances vm = Some l -> List.length l = List.length (values vm)) ->
  var_binop Sub vm (mkVar [] [b] None) =
  Ok (mkVar (dims vm) (map (fun x => (x - b)%Q) (values vm)) (variances vm)).
Proof.
  destruct vm as [sz xs vs]; simpl; intros Hlen Hvar.
  destruct sz as [|p sz'].
  - destruct xs as [|x [|x' xs']]; simpl in Hlen; try lia.
    unfold var_binop, merged_sizes; simpl. unfold broadcast; simpl.
    destruct vs as [va|]; [|reflexivity].
    specialize (Hvar va eq_refl); simpl in Hvar.
    destruct va as [|v [|v' va]]; simpl in Hvar; try lia. reflexivity.
  - destruct p as [d n]; simpl in Hlen.
    unfold var_binop, merged_sizes; simpl.
    unfold broadcast; simpl.
    rewrite String.eqb_refl, Nat.eqb_refl, sizes_eqb_refl; simpl.
    rewrite <- Hlen. rewrite zip_with_repeat.
    destruct vs as [va|]; [|reflexivity]. do 3 f_equal.
    apply zip_with_snd; [apply repeat_length|]. apply Hvar; reflexivity.
Qed.

(** C1. Without a non-background range the result is the rebinned monitor
    ([hist] of binned data, [rebin] of dense data). With a range, the
    background estimated from the masked monitor is subtracted from the
    rebinned monitor: its values only under [drop], its upper-bound
    broadcast to the monitor's sizes under [upper_bound], itself under
    [fail]. Under [drop] the variances of the result are those of the
    rebinned monitor. Under [fail], the direct subtraction of a scalar
    background that carries variances from a monitor with a dimension is
    refused by scipp with a [VariancesError]. *)
Theorem preprocess_monitor_data_modes
    (mask_range : DataArray -> DataArray -> result DataArray)
    (mean : DataArray -> result DataArray)
    (hist_wavelength rebin_wavelength : DataArray -> Var -> result DataArray)
    (ub : DataArray -> sizes -> result DataArray)
    (monitor : DataArray) (wavelength_bins : Var) :
  let pre := preprocess_monitor_data mask_range mean hist_wavelength rebin_wavelength ub
               monitor wavelength_bins in
  let rebinned := if is_binned monitor then hist_wavelength monitor wavelength_bins
                  else rebin_wavelength monitor wavelength_bins in
  (forall u, pre None u = rebinned)
  /\ (forall r mask m background,
        range_mask r = Ok mask -> mask_range monitor mask = Ok m -> mean m = Ok background ->
        pre (Some r) drop = (mon <- rebinned ;; da_isub mon (da_values background))
        /\ pre (Some r) upper_bound =
             (mon <- rebinned ;; b <- ub background (da_dims mon) ;; da_isub mon b)
        /\ pre (Some r) fail = (mon <- rebinned ;; da_isub mon background))
  /\ (forall mon vm background vb b res,
        data mon = Dense vm -> data background = Dense vb -> dims vb = [] -> values vb = [b] ->
        List.length (values vm) = volume (dims vm) ->
        (forall l, variances vm = Some l -> List.length l = List.length (values vm)) ->
        da_isub mon (da_values background) = Ok res ->
        data res = Dense (mkVar (dims vm) (map (fun x => (x - b)%Q) (values vm)) (variances vm)))
  /\ (forall mon vm background b v,
        data mon = Dense vm -> dims vm <> [] ->
        data background = Dense (mkVar [] [b] (Some [v])) ->
        da_isub mon background = Err VariancesError).
Proof.
  intros pre rebinned. split; [|split; [|split]].
  - intros u. subst pre rebinned. unfold preprocess_monitor_data; simpl.
    destruct (if is_binned monitor then _ else _); reflexivity.
  - intros r mask m background Hm Hr Hmean. subst pre.
    unfold preprocess_monitor_data; rewrite Hm; simpl; rewrite Hr; simpl; rewrite Hmean; simpl.
    subst rebinned; repeat split.
  - intros mon vm background vb b res Hmon Hbg Hvb Hb Hlen Hvar Hres.
    unfold da_isub, da_sub, da_binop, da_values in Hres.
    rewrite Hmon, Hbg in Hres; simpl in Hres. unfold var_values in Hres.
    rewrite Hvb, Hb, (var_binop_sub_scalar vm b Hlen Hvar) in Hres; simpl in Hres.
    destruct (merge_coords _ _); simpl in Hres; [|discriminate].
    destruct (merge_masks _ _); simpl in Hres; [|discriminate].
    inversion Hres; reflexivity.
  - intros mon vm background b v Hmon Hne Hbg.
    unfold da_isub, da_sub, da_binop. rewrite Hmon, Hbg.
    destruct vm as [[|[d n] sz] xs vs]; [exfalso; apply Hne; reflexivity|].
    unfold var_binop, merged_sizes, broadcast; simpl.
    rewrite String.eqb_refl, Nat.eqb_refl, sizes_eqb_refl; reflexivity.
Qed.

Definition c1_monitor : DataArray :=
  mkDA (Dense (mkVar [("wavelength"%string, 2)] [5%Q; 7%Q] None)) [] [].

Definition c1_range : Var := mkVar [("wavelength"%string, 2)] [0%Q; 1%Q] None.

Definition c1_mask : DataArray :=
  mkDA (Dense (mkVar [("wavelength"%string, 1)] [1%Q] None)) [("wavelength"%string, c1_range)] [].

Definition c1_background : DataArray := mkDA (Dense (mkVar [] [2%Q] (Some [1%Q]))) [] [].

Lemma preprocess_monitor_data_modes_witness :
  range_mask c1_range = Ok c1_mask
  /\ preprocess_monitor_data (fun m _ => Ok m) (fun _ => Ok c1_background)
       (fun m _ => Ok m) (fun m _ => Ok m) (fun b _ => Ok b) c1_monitor c1_range
       (Some c1_range) drop
     = da_isub c1_monitor (da_values c1_background)
  /\ (forall res, da_isub c1_monitor (da_values c1_background) = Ok res ->
        data res = Dense (mkVar [("wavelength"%string, 2)] [(5 - 2)%Q; (7 - 2)%Q] None)).
Proof.
  split; [reflexivity|]. split.
  - apply (proj1 (proj1 (proj2 (preprocess_monitor_data_modes (fun m _ => Ok m)
             (fun _ => Ok c1_background) (fun m _ => Ok m) (fun m _ => Ok m) (fun b _ => Ok b)
             c1_monitor c1_range)) c1_range c1_mask c1_monitor c1_background
             eq_refl eq_refl eq_refl)).
  - intros res Hres.
    apply (proj1 (proj2 (proj2 (preprocess_monitor_data_modes (fun m _ => Ok m)
             (fun _ => Ok c1_background) (fun m _ => Ok m) (fun m _ => Ok m) (fun b _ => Ok b)
             c1_monitor c1_range))) c1_monitor
             (mkVar [("wavelength"%string, 2)] [5%Q; 7%Q] None) c1_background
             (mkVar [] [2%Q] (Some [1%Q])) 2%Q res eq_refl eq_refl eq_refl eq_refl eq_refl);
      [intros l Hl; discriminate Hl | exact Hres].
Defined.

(** ** C4: direct-beam resampling *)









(** ** C8: solid angle *)

Lemma mem_In (x : string) (l : list string) : mem x l = true <-> In x l.
Proof.
  unfold mem; rewrite existsb_exists; split.
  - intros [y [Hy Hxy]]; apply String.eqb_eq in Hxy; subst y; exact Hy.
  - intros Hx; exists x; split; [exact Hx | apply String.eqb_refl].
Qed.

Lemma mem_filter (x : string) (h : string -> bool) (l : list string) :
  mem x (filter h l) = true <-> In x l /\ h x = true.
Proof. rewrite mem_In; apply filter_In. Qed.

Lemma forallb_ext_in {A} (f g : A -> bool) (l : list A) :
  (forall x, In x l -> f x = g x) -> forallb f l = forallb g l.
Proof.
  induction l as [|a l IH]; intros H; [reflexivity|]; simpl.
  rewrite (H a (or_introl eq_refl)), IH; [reflexivity|].
  intros x Hx; apply H; right; exact Hx.
Qed.

(** A dimension of the data is among the reduced dimensions exactly when it
    is not a dimension of the result. *)
Lemma reduced_dim_iff (x : string) (data_dims out_dims : list string) :
  In x data_dims ->
  negb (mem x (filter (fun n => negb (mem n out_dims)) data_dims)) = mem x out_dims.
Proof.
  intros Hx.
  destruct (mem x out_dims) eqn:Ho;
    destruct (mem x (filter (fun n => negb (mem n out_dims)) data_dims)) eqn:Hf;
    try reflexivity.
  - apply mem_filter in Hf; destruct Hf as [_ Hf]; rewrite Ho in Hf; discriminate.
  - exfalso. assert (Hin : mem x (filter (fun n => negb (mem n out_dims)) data_dims) = true)
      by (apply mem_filter; split; [exact Hx | rewrite Ho; reflexivity]).
    rewrite Hf in Hin; discriminate.
Qed.

(** C8. When [pixel_width], [pixel_height] and the distance [L2] have the
    same sizes, the solid angle succeeds; its values are, per pixel, the
    product of width and height divided by the squared distance, over the
    sizes of the pixel coordinates. For data whose coordinates and masks
    only use dimensions of the data, a coordinate or a mask is kept exactly
    when all its dimensions are dimensions of the result, and dropped
    otherwise. *)
Theorem solid_angle_formula_and_reduction (scn_L2 : DataArray -> result Var)
    (d : DataArray) (pw ph l2 : Var) :
  coord d "pixel_width" = Ok pw -> coord d "pixel_height" = Ok ph -> scn_L2 d = Ok l2 ->
  dims ph = dims pw -> dims l2 = dims pw ->
  Forall (fun kv => incl (dim_names (dims (snd kv))) (dim_names (da_dims d))) (coords d) ->
  Forall (fun kv => incl (dim_names (mdims (snd kv))) (dim_names (da_dims d))) (masks d) ->
  exists vv out,
    solid_angle_rectangular_approximation scn_L2 d = Ok out
    /\ data out = Dense (mkVar (dims pw)
                           (zip_with Qdiv (zip_with Qmult (values pw) (values ph))
                                          (zip_with Qmult (values l2) (values l2))) vv)
    /\ coords out = filter (fun kv => forallb (fun x => mem x (dim_names (dims pw)))
                                              (dim_names (dims (snd kv)))) (coords d)
    /\ masks out = filter (fun kv => forallb (fun x => mem x (dim_names (dims pw)))
                                             (dim_names (mdims (snd kv)))) (masks d).
Proof.
  intros Hpw Hph Hl2 Hdph Hdl2 Hcs Hms.
  destruct (var_binop_same_dims Mul pw ph (eq_sym Hdph)) as [v1 H1].
  destruct (var_binop_same_dims Mul l2 l2 eq_refl) as [v2 H2].
  rewrite Hdl2 in H2. change (op_val Mul) with Qmult in H1, H2.
  destruct (var_binop_same_dims Div
              (mkVar (dims pw) (zip_with Qmult (values pw) (values ph)) v1)
              (mkVar (dims pw) (zip_with Qmult (values l2) (values l2)) v2) eq_refl)
    as [vv H3]. change (op_val Div) with Qdiv in H3.
  exists vv. eexists. split; [|split; [|split]].
  - unfold solid_angle_rectangular_approximation.
    rewrite Hpw; simpl; rewrite Hph; simpl; rewrite Hl2; simpl; rewrite H1; simpl;
      rewrite H2; simpl; rewrite H3; simpl. reflexivity.
  - reflexivity.
  - simpl; unfold reduced. apply filter_ext_in; intros kv Hin.
    apply forallb_ext_in; intros x Hx. apply reduced_dim_iff.
    rewrite Forall_forall in Hcs; exact (Hcs kv Hin x Hx).
  - simpl; unfold reduced. apply filter_ext_in; intros kv Hin.
    apply forallb_ext_in; intros x Hx. apply reduced_dim_iff.
    rewrite Forall_forall in Hms; exact (Hms kv Hin x Hx).
Qed.

Definition c8_pixels : Var := mkVar [("x"%string, 2)] [1%Q; 2%Q] None.

Definition c8_data : DataArray :=
  mkDA (Dense (mkVar [("x"%string, 2); ("t"%string, 3)] (repeat 1%Q 6) None))
       [("pixel_width"%string, c8_pixels); ("pixel_height"%string, c8_pixels);
        ("t"%string, mkVar [("t"%string, 3)] [0%Q; 1%Q; 2%Q] None);
        ("sample"%string, mkVar [] [0%Q] None)]
       [("dead"%string, mkMask [("x"%string, 2)] [false; true]);
        ("late"%string, mkMask [("t"%string, 3)] [false; false; true])].

Definition c8_L2 (_ : DataArray) : result Var := Ok (mkVar [("x"%string, 2)] [2%Q; 4%Q] None).

Lemma solid_angle_formula_and_reduction_witness :
  (exists vv out,
    solid_angle_rectangular_approximation c8_L2 c8_data = Ok out
    /\ data out = Dense (mkVar [("x"%string, 2)]
                           (zip_with Qdiv (zip_with Qmult [1%Q; 2%Q] [1%Q; 2%Q])
                                          (zip_with Qmult [2%Q; 4%Q] [2%Q; 4%Q])) vv)
    /\ coords out = filter (fun kv => forallb (fun x => mem x ["x"%string])
                                              (dim_names (dims (snd kv)))) (coords c8_data)
    /\ masks out = filter (fun kv => forallb (fun x => mem x ["x"%string])
                                             (dim_names (mdims (snd kv)))) (masks c8_data))
  /\ map fst (filter (fun kv => forallb (fun x => mem x ["x"%string])
                                        (dim_names (dims (snd kv)))) (coords c8_data))
     = ["pixel_width"%string; "pixel_height"%string; "sample"%string]
  /\ map fst (filter (fun kv => forallb (fun x => mem x ["x"%string])
                                        (dim_names (mdims (snd kv)))) (masks c8_data))
     = ["dead"%string].
Proof.
  split; [|split; reflexivity].
  apply (solid_angle_formula_and_reduction c8_L2 c8_data c8_pixels c8_pixels
           (mkVar [("x"%string, 2)] [2%Q; 4%Q] None)); try reflexivity;
    apply Forall_forall; intros kv Hkv; simpl in Hkv;
    repeat destruct Hkv as [Hkv|Hkv]; subst; try contradiction;
    intros y Hy; simpl in *; intuition.
Defined.

(** ** C10: the band dimension of merged spectra *)

















Lemma mapM_in {A B} (f : A -> result B) (l : list A) (ys : list B) :
  mapM f l = Ok ys -> List.length ys = List.length l /\
  (forall y, In y ys -> exists x, In x l /\ f x = Ok y).
Proof.
  revert ys; induction l as [|x l IH]; intros ys H; simpl in H.
  - inversion H; subst; split; [reflexivity | intros y []].
  - destruct (f x) as [y|e] eqn:Hf; simpl in H; [|discriminate].
    destruct (mapM f l) as [ys'|e] eqn:Hl; simpl in H; [|discriminate].
    inversion H; subst ys. destruct (IH ys' eq_refl) as [Hlen Hin].
    split; [simpl; rewrite Hlen; reflexivity|].
    intros z [Hz|Hz]; [subst z; exists x; split; [left; reflexivity | exact Hf]|].
    destruct (Hin z Hz) as [w [Hw Hfw]]; exists w; split; [right; exact Hw | exact Hfw].
Qed.












Lemma merge_band_needs_pop (auto_edges : nat -> list Q -> list Q)
    (set_pop : list string -> result string) (data_q : DataArray) (q_bins : QBins)
    (fd : list string) (wb : Var) (out : Payload) :
  (o <- (if is_binned data_q then
           o <- events_merge_spectra auto_edges set_pop data_q q_bins fd (Some wb) ;;
           match o with Some p => Ok p | None => Err AttributeError end
         else dense_merge_spectra auto_edges set_pop data_q q_bins fd (Some wb)) ;;
   Ok (squeeze o)) = Ok out ->
  exists bd ranges, set_pop (band_dims wb) = Ok bd /\ collapse wb "wavelength" = Ok ranges.
Proof.
  intros H. destruct (set_pop (band_dims wb)) as [bd|e] eqn:Hpop.
  - destruct (collapse wb "wavelength") as [ranges|e] eqn:Hcol; [exists bd, ranges; split; reflexivity|].
    exfalso. destruct (is_binned data_q).
    + unfold events_merge_spectra in H. destruct (data data_q); [discriminate|].
      destruct (to_q_bins q_bins); cbn [bind] in H; [|discriminate].
      destruct (bin_binned _ _ _ _); cbn [bind] in H; [|discriminate].
      rewrite Hpop, Hcol in H; discriminate.
    + unfold dense_merge_spectra in H.
      destruct (to_q_bins q_bins); cbn [bind] in H; [|discriminate].
      rewrite Hpop, Hcol in H; discriminate.
  - exfalso. destruct (is_binned data_q).
    + unfold events_merge_spectra in H. destruct (data data_q); [discriminate|].
      destruct (to_q_bins q_bins); cbn [bind] in H; [|discriminate].
      destruct (bin_binned _ _ _ _); cbn [bind] in H; [|discriminate].
      rewrite Hpop in H; discriminate.
    + unfold dense_merge_spectra in H.
      destruct (to_q_bins q_bins); cbn [bind] in H; [|discriminate].
      rewrite Hpop in H; discriminate.
Qed.


Definition c10_event (q w : Q) : Event :=
  mkEvent [("Q"%string, q); ("wavelength"%string, w)] 1%Q 1%Q.

Definition c10_events : DataArray :=
  mkDA (Binned [("spectrum"%string, 2)]
               [[c10_event 1 2; c10_event 3 5]; [c10_event 2 4; c10_event (5 # 2) 1]]) [] [].

Definition c10_pop (l : list string) : result string :=
  match l with [] => Err KeyError | x :: _ => Ok x end.

Definition c10_auto_edges (_ : nat) (_ : list Q) : list Q := [0%Q; 4%Q].

Definition c10_q_bins : QBins := QEdges (mkVar [("Q"%string, 3)] [0%Q; 2%Q; 4%Q] None).






(** ** C6: inference of the band dimension *)

Lemma merge_spectra_pop_ext (auto_edges : nat -> list Q -> list Q)
    (sp1 sp2 : list string -> result string) (data_q : DataArray) (q_bins : QBins)
    (wb : Var) (final_dims : option (list string)) :
  List.length (dims wb) <> 1 -> sp1 (band_dims wb) = sp2 (band_dims wb) ->
  merge_spectra auto_edges sp1 data_q q_bins (Some wb) final_dims
  = merge_spectra auto_edges sp2 data_q q_bins (Some wb) final_dims.
Proof.
  intros Hlen H. unfold merge_spectra. rewrite (proj2 (Nat.eqb_neq _ _) Hlen). cbn [bind].
  unfold events_merge_spectra, dense_merge_spectra. rewrite H. reflexivity.
Qed.

Lemma merge_spectra_bands_ext (auto_edges : nat -> list Q -> list Q)
    (set_pop : list string -> result string) (data_q : DataArray) (q_bins : QBins)
    (w1 w2 : Var) (final_dims : option (list string)) :
  List.length (dims w1) <> 1 -> List.length (dims w2) <> 1 ->
  set_pop (band_dims w1) = set_pop (band_dims w2) ->
  collapse w1 "wavelength" = collapse w2 "wavelength" ->
  merge_spectra auto_edges set_pop data_q q_bins (Some w1) final_dims
  = merge_spectra auto_edges set_pop data_q q_bins (Some w2) final_dims.
Proof.
  intros H1 H2 Hp Hc. unfold merge_spectra.
  rewrite (proj2 (Nat.eqb_neq _ _) H1), (proj2 (Nat.eqb_neq _ _) H2). cbn [bind].
  unfold events_merge_spectra, dense_merge_spectra. rewrite Hp, Hc. reflexivity.
Qed.

Lemma length_filter_fst (f : string -> bool) (sz : sizes) :
  List.length (filter (fun p => f (fst p)) sz) = List.length (filter f (dim_names sz)).
Proof.
  induction sz as [|[d n] sz IH]; simpl; [reflexivity|].
  destruct (f d); simpl; rewrite IH; reflexivity.
Qed.

Lemma nth_concat_uniform (ls : list (list Q)) (nk j k : nat) :
  Forall (fun l => List.length l = nk) ls -> k < nk ->
  nth (j * nk + k) (List.concat ls) 0%Q = nth k (nth j ls []) 0%Q.
Proof.
  intros Hl Hk. revert j. induction Hl as [|l ls Hl _ IH]; intros j.
  - simpl. destruct (j * nk + k), j, k; reflexivity.
  - destruct j as [|j]; simpl.
    + rewrite app_nth1 by lia. reflexivity.
    + rewrite app_nth2 by lia. rewrite <- IH. f_equal. lia.
Qed.

Lemma map_nth_seq_self {A} (l : list A) (n : nat) (d : A) (f : nat -> A) :
  List.length l = n -> (forall j, j < n -> f j = nth j l d) -> map f (seq 0 n) = l.
Proof.
  intros Hn H. subst n. apply (nth_ext _ _ d d).
  - rewrite length_map, length_seq; reflexivity.
  - intros j Hj. rewrite length_map, length_seq in Hj.
    rewrite nth_indep with (d' := f 0) by (rewrite length_map, length_seq; exact Hj).
    rewrite map_nth, seq_nth by exact Hj. apply H; exact Hj.
Qed.

(** The band coordinate [{bd: length ranges, wavelength: nk}] whose rows
    are the given ranges. *)
Definition stack_bands (bd : string) (ranges : list Var) (nk : nat) : Var :=
  mkVar [(bd, List.length ranges); ("wavelength"%string, nk)]
        (List.concat (map values ranges)) None.

Lemma collapse_ranges_shape (wb : Var) (nk : nat) (ranges : list Var) :
  assoc "wavelength" (dims wb) = Some nk -> collapse wb "wavelength" = Ok ranges ->
  Forall (fun r => r = mkVar [("wavelength"%string, nk)] (values r) None
                   /\ List.length (values r) = nk) ranges.
Proof.
  intros Ha Hc. unfold collapse in Hc; rewrite Ha in Hc.
  destruct (Nat.leb 3 _); [discriminate|]. inversion Hc; subst ranges; clear Hc.
  apply Forall_forall; intros r Hr. apply in_map_iff in Hr; destruct Hr as [j [<- _]].
  simpl; split; [reflexivity|]. rewrite length_map, length_seq; reflexivity.
Qed.

Lemma collapse_stack_bands (bd : string) (ranges : list Var) (nk : nat) :
  bd <> "wavelength"%string ->
  Forall (fun r => r = mkVar [("wavelength"%string, nk)] (values r) None
                   /\ List.length (values r) = nk) ranges ->
  collapse (stack_bands bd ranges nk) "wavelength" = Ok ranges.
Proof.
  intros Hbd Hr.
  assert (E1 : String.eqb bd "wavelength" = false) by (apply String.eqb_neq; exact Hbd).
  assert (E2 : String.eqb "wavelength" bd = false)
    by (apply String.eqb_neq; intros E; apply Hbd; symmetry; exact E).
  unfold collapse, stack_bands; cbn -[String.eqb].
  rewrite E2; cbn -[String.eqb]. rewrite E1; cbn -[String.eqb].
  rewrite String.eqb_refl; cbn -[String.eqb].
  f_equal. apply map_nth_seq_self with (d := mkVar [] [] None); [lia|].
  intros j Hj. rewrite Nat.mul_1_r in Hj.
  assert (Hin : In (nth j ranges (mkVar [] [] None)) ranges) by (apply nth_In; exact Hj).
  rewrite Forall_forall in Hr. destruct (Hr _ Hin) as [Hrj Hlen].
  rewrite Hrj. f_equal. apply map_nth_seq_self with (d := 0%Q); [exact Hlen|].
  intros k Hk.
  change (fst (Nat.divmod j 0 0 0)) with (j / 1).
  rewrite Nat.div_1_r, !Nat.mul_1_r, Nat.add_0_r.
  assert (Hf : Forall (fun l => List.length l = nk) (map values ranges)).
  { apply Forall_map, Forall_forall; intros r Hr'; apply (Hr r Hr'). }
  rewrite (nth_concat_uniform _ nk j k Hf Hk).
  rewrite <- (map_nth values ranges (mkVar [] [] None) j). reflexivity.
Qed.

Definition c6_bands : Var :=
  mkVar [("a"%string, 2); ("b"%string, 2); ("wavelength"%string, 2)]
        [1%Q; 3%Q; 3%Q; 5%Q; 1%Q; 6%Q; 0%Q; 9%Q] None.

(** C6. With no dimension besides [wavelength] in a band coordinate that is
    not 1-d, [set.pop] of the empty set raises [KeyError] and the merge
    never succeeds. With two other dimensions the band inference does not
    fail: [sc.collapse] gives one band per position of the two dimensions,
    and for the element [x] that [set.pop] returns, the merge equals the
    merge with these bands stacked along [x], a band coordinate with exactly
    one dimension besides [wavelength]. *)
Theorem merge_spectra_band_inference (auto_edges : nat -> list Q -> list Q) :
  (forall (set_pop : list string -> result string) data_q q_bins wb final_dims out,
      set_pop [] = Err KeyError ->
      band_dims wb = [] -> List.length (dims wb) <> 1 ->
      merge_spectra auto_edges set_pop data_q q_bins (Some wb) final_dims <> Ok out)
  /\ (forall (set_pop : list string -> result string) data_q q_bins wb final_dims x nk,
      List.length (band_dims wb) = 2 -> assoc "wavelength" (dims wb) = Some nk ->
      set_pop (band_dims wb) = Ok x -> In x (band_dims wb) -> set_pop [x] = Ok x ->
      exists ranges,
        collapse wb "wavelength" = Ok ranges
        /\ List.length ranges
           = volume (filter (fun p => negb (String.eqb (fst p) "wavelength")) (dims wb))
        /\ merge_spectra auto_edges set_pop data_q q_bins (Some wb) final_dims
           = merge_spectra auto_edges set_pop data_q q_bins (Some (stack_bands x ranges nk))
               final_dims).
Proof.
  split.
  - intros set_pop data_q q_bins wb fd out Hpop Hbd Hlen H.
    unfold merge_spectra in H. rewrite (proj2 (Nat.eqb_neq _ _) Hlen) in H. cbn [bind] in H.
    destruct (merge_band_needs_pop _ _ _ _ _ _ _ H) as [bd [ranges [Hb _]]].
    rewrite Hbd, Hpop in Hb; discriminate.
  - intros set_pop data_q q_bins wb fd x nk H2 Ha Hx Hin Hx1.
    assert (Hxw : x <> "wavelength"%string).
    { intros E; subst x. unfold band_dims in Hin. apply filter_In in Hin.
      destruct Hin as [_ Hin]; rewrite String.eqb_refl in Hin; discriminate. }
    set (others := filter (fun p => negb (String.eqb (fst p) "wavelength")) (dims wb)).
    assert (Ho : List.length others = 2).
    { unfold others; rewrite (length_filter_fst (fun d => negb (String.eqb d "wavelength"))).
      exact H2. }
    assert (Hc : exists ranges, collapse wb "wavelength" = Ok ranges
                                /\ List.length ranges = volume others).
    { unfold collapse; rewrite Ha. fold others. rewrite Ho; simpl.
      eexists; split; [reflexivity|]. rewrite length_map, length_seq; reflexivity. }
    destruct Hc as [ranges [Hc Hl]]. exists ranges. split; [exact Hc|]. split; [exact Hl|].
    assert (Hd : List.length (dims wb) <> 1).
    { intros E. assert (Hle : List.length others <= List.length (dims wb))
        by apply filter_length_le. lia. }
    apply merge_spectra_bands_ext; [exact Hd | simpl; lia | |].
    + rewrite Hx. unfold band_dims, stack_bands; simpl.
      rewrite (proj2 (String.eqb_neq _ _) Hxw); simpl. symmetry; exact Hx1.
    + rewrite Hc. symmetry. apply collapse_stack_bands; [exact Hxw|].
      apply (collapse_ranges_shape wb); assumption.
Qed.

Lemma merge_spectra_two_band_dims_succeeds :
  merge_spectra c10_auto_edges c10_pop c10_events c10_q_bins (Some c6_bands) None
  = Ok (Binned [("a"%string, 4); ("Q"%string, 2)]
               [[c10_event 1 2]; [c10_event (5 # 2) 1];
                [c10_event 1 2]; [c10_event 3 5; c10_event 2 4; c10_event (5 # 2) 1];
                []; [c10_event 2 4];
                [c10_event 1 2]; [c10_event 3 5; c10_event 2 4; c10_event (5 # 2) 1]]).
Proof. vm_compute. reflexivity. Qed.

Lemma merge_spectra_band_inference_witness :
  (forall out, merge_spectra c10_auto_edges c10_pop c10_events c10_q_bins
                 (Some (mkVar [] [1%Q] None)) None <> Ok out)
  /\ (exists ranges,
        collapse c6_bands "wavelength" = Ok ranges
        /\ List.length ranges = 4
        /\ merge_spectra c10_auto_edges c10_pop c10_events c10_q_bins (Some c6_bands) None
           = merge_spectra c10_auto_edges c10_pop c10_events c10_q_bins
               (Some (stack_bands "a" ranges 2)) None).
Proof.
  split.
  - intros out.
    apply (proj1 (merge_spectra_band_inference c10_auto_edges) c10_pop c10_events c10_q_bins
             (mkVar [] [1%Q] None) None out); [reflexivity | reflexivity | simpl; lia].
  - apply (proj2 (merge_spectra_band_inference c10_auto_edges) c10_pop c10_events c10_q_bins
             c6_bands None "a"%string 2);
      [reflexivity | reflexivity | reflexivity | simpl; left; reflexivity | reflexivity].
Defined.

(** ** C5: a single band over the whole wavelength range *)





Lemma bins_concat_events (sz : sizes) (cells : list (list Event)) (ds : list string)
    (sz' : sizes) (cells' : list (list Event)) (e : Event) :
  bins_concat sz cells ds = Binned sz' cells' -> In e (List.concat cells') ->
  In e (List.concat cells).
Proof.
  unfold bins_concat; intros H; inversion H; subst; clear H.
  intros He. apply in_concat in He; destruct He as [c [Hc He]].
  apply in_map_iff in Hc; destruct Hc as [j [Hj _]]; subst c.
  apply in_concat in He; destruct He as [c [Hc He]].
  apply in_map_iff in Hc; destruct Hc as [ic [Hic Hin]]; subst c.
  apply filter_In in Hin; destruct Hin as [Hin _].
  apply in_concat; exists (snd ic); split; [|exact He].
  destruct ic as [i c]; apply in_combine_r in Hin; exact Hin.
Qed.








Lemma fold_flat_band (lo hi : Q) :
  fold_bands (mkVar [("wavelength"%string, 2)] [lo; hi] None)
  = Ok (mkVar [("band"%string, 1); ("wavelength"%string, 2)] [lo; hi] None).
Proof. reflexivity. Qed.






(** * Further properties of the reduction code *)

(** ** Shared lemmas *)

Lemma merge_masks_nil_l (ms : list (string * Mask)) : merge_masks [] ms = Ok ms.
Proof.
  unfold merge_masks; simpl. f_equal. induction ms as [|kv ms IH]; [reflexivity|].
  simpl; f_equal; exact IH.
Qed.

Lemma assoc_In {A} (k : string) (v : A) (l : list (string * A)) :
  assoc k l = Some v -> In (k, v) l.
Proof.
  induction l as [|[k' v'] l IH]; simpl; [discriminate|].
  destruct (String.eqb_spec k k'); intros H.
  - inversion H; subst; left; reflexivity.
  - right; apply IH; exact H.
Qed.

Lemma assoc_set_same {A} (k : string) (v : A) (l : list (string * A)) :
  assoc k (assoc_set k v l) = Some v.
Proof.
  induction l as [|[k' v'] l IH]; simpl; [rewrite String.eqb_refl; reflexivity|].
  destruct (String.eqb_spec k k'); simpl.
  - subst; rewrite String.eqb_refl; reflexivity.
  - apply String.eqb_neq in n; rewrite n; exact IH.
Qed.

(** The product of two dense arrays of the same sizes and coordinates,
    the right one without masks. *)
Lemma da_mul_same (a b : DataArray) (va vb : Var) :
  data a = Dense va -> data b = Dense vb -> dims vb = dims va ->
  coords b = coords a -> NoDup (map fst (coords a)) -> masks b = [] ->
  exists vv, da_mul a b
             = Ok (mkDA (Dense (mkVar (dims va) (zip_with Qmult (values va) (values vb)) vv))
                        (coords a) (masks a)).
Proof.
  intros Ha Hb Hd Hc Hnd Hm. unfold da_mul, da_binop. rewrite Ha, Hb.
  destruct (var_binop_same_dims Mul va vb (eq_sym Hd)) as [vv Hv]. rewrite Hv. cbn [bind].
  rewrite Hc, merge_coords_self by exact Hnd. cbn [bind].
  rewrite Hm, merge_masks_nil. cbn [bind]. exists vv; reflexivity.
Qed.

(** The last step of [iofq_norm_wavelength_term] on a 1-d term over
    wavelength with a bin-edge wavelength coordinate. *)
Lemma norm_term_midpoints_edges (out : DataArray) (v e : Var) (n : nat) :
  data out = Dense v -> dims v = [("wavelength"%string, n)] ->
  coord out "wavelength" = Ok e -> dims e = [("wavelength"%string, S n)] ->
  List.length (values e) = S n -> variances e = None -> 1 <= n ->
  (c <- coord out "wavelength" ;; m <- var_midpoints c ;; set_coord out "wavelength" m)
  = Ok (mkDA (data out)
             (assoc_set "wavelength" (mkVar [("wavelength"%string, n)] (midpoints (values e)) None)
                        (coords out))
             (masks out)).
Proof.
  intros Hd Hv Hc He Hl Hvar Hn. rewrite Hc; cbn [bind].
  unfold var_midpoints, var_dim. rewrite He, Hvar, Hl; cbn [bind].
  destruct (Nat.leb_spec 2 (S n)); [|lia].
  replace (S n - 1) with n by lia. unfold set_coord, da_dims; rewrite Hd, Hv; simpl.
  rewrite Nat.eqb_refl; reflexivity.
Qed.

(** The same step when the wavelength coordinate holds points, one per
    element. *)
Lemma norm_term_midpoints_points (out : DataArray) (v e : Var) (n : nat) :
  data out = Dense v -> dims v = [("wavelength"%string, n)] ->
  coord out "wavelength" = Ok e -> dims e = [("wavelength"%string, n)] ->
  List.length (values e) = n -> variances e = None -> 2 <= n ->
  (c <- coord out "wavelength" ;; m <- var_midpoints c ;; set_coord out "wavelength" m)
  = Err DimensionError.
Proof.
  intros Hd Hv Hc He Hl Hvar Hn. rewrite Hc; cbn [bind].
  unfold var_midpoints, var_dim. rewrite He, Hvar, Hl; cbn [bind].
  destruct (Nat.leb_spec 2 n); [|lia].
  unfold set_coord, da_dims; rewrite Hd, Hv; simpl.
  destruct (Nat.eqb_spec (n - 1) n); [lia|].
  destruct (Nat.eqb_spec (n - 1) (S n)); [lia|]. reflexivity.
Qed.

(** ** The wavelength term of the denominator *)

(** Without a direct beam, the wavelength term of monitor and transmission
    fraction on the same wavelength bins is their elementwise product, for
    every uncertainty mode; its wavelength coordinate, the [n + 1] bin
    edges, is replaced by the [n] bin midpoints. *)
Theorem iofq_norm_wavelength_term_no_direct_beam
    (drop_variances_if_broadcast broadcast_with_upper_bound_variances :
       DataArray -> sizes -> result DataArray)
    (uncertainties : UncertaintyBroadcastMode) (im tf : DataArray) (vi vt e : Var) (n : nat) :
  data im = Dense vi -> data tf = Dense vt -> dims vi = [("wavelength"%string, n)] ->
  dims vt = dims vi -> coords tf = coords im -> NoDup (map fst (coords im)) -> masks tf = [] ->
  coord im "wavelength" = Ok e -> dims e = [("wavelength"%string, S n)] ->
  List.length (values e) = S n -> variances e = None -> 1 <= n ->
  exists vv,
    iofq_norm_wavelength_term drop_variances_if_broadcast broadcast_with_upper_bound_variances
      im tf None uncertainties
    = Ok (mkDA (Dense (mkVar (dims vi) (zip_with Qmult (values vi) (values vt)) vv))
               (assoc_set "wavelength"
                  (mkVar [("wavelength"%string, n)] (midpoints (values e)) None) (coords im))
               (masks im)).
Proof.
  intros Hi Ht Hdi Hdt Hc Hnd Hm He Hde Hl Hve Hn.
  destruct (da_mul_same im tf vi vt Hi Ht Hdt Hc Hnd Hm) as [vv Hmul].
  exists vv. unfold iofq_norm_wavelength_term. rewrite Hmul; cbn [bind].
  set (V := mkVar (dims vi) (zip_with Qmult (values vi) (values vt)) vv).
  rewrite (norm_term_midpoints_edges (mkDA (Dense V) (coords im) (masks im)) V
             e n eq_refl Hdi He Hde Hl Hve Hn).
  reflexivity.
Qed.

(** Under the [fail] mode, the wavelength term with a direct beam on the
    same wavelength bins is the elementwise product
    direct_beam * (monitor * transmission_fraction), with the bin edges of
    the wavelength coordinate replaced by their midpoints. *)
Theorem iofq_norm_wavelength_term_fail_direct_beam
    (drop_variances_if_broadcast broadcast_with_upper_bound_variances :
       DataArray -> sizes -> result DataArray)
    (im tf db : DataArray) (vi vt vd e : Var) (n : nat) :
  data im = Dense vi -> data tf = Dense vt -> data db = Dense vd ->
  dims vi = [("wavelength"%string, n)] -> dims vt = dims vi -> dims vd = dims vi ->
  coords tf = coords im -> coords db = coords im -> NoDup (map fst (coords im)) ->
  masks tf = [] -> masks db = [] ->
  coord im "wavelength" = Ok e -> dims e = [("wavelength"%string, S n)] ->
  List.length (values e) = S n -> variances e = None -> 1 <= n ->
  exists vv,
    iofq_norm_wavelength_term drop_variances_if_broadcast broadcast_with_upper_bound_variances
      im tf (Some db) fail
    = Ok (mkDA (Dense (mkVar (dims vi)
                         (zip_with Qmult (values vd) (zip_with Qmult (values vi) (values vt))) vv))
               (assoc_set "wavelength"
                  (mkVar [("wavelength"%string, n)] (midpoints (values e)) None) (coords im))
               (masks im)).
Proof.
  intros Hi Ht Hdb Hdi Hdt Hdd Hc Hcd Hnd Hm Hmd He Hde Hl Hve Hn.
  destruct (da_mul_same im tf vi vt Hi Ht Hdt Hc Hnd Hm) as [vv1 Hmul].
  unfold iofq_norm_wavelength_term. rewrite Hmul; cbn [bind broadcasters].
  set (out := mkDA (Dense (mkVar (dims vi) (zip_with Qmult (values vi) (values vt)) vv1))
                   (coords im) (masks im)).
  unfold da_mul, da_binop. rewrite Hdb. cbn [data out].
  destruct (var_binop_same_dims Mul vd (mkVar (dims vi) (zip_with Qmult (values vi) (values vt)) vv1)
              ltac:(simpl; exact Hdd)) as [vv Hv].
  rewrite Hv; cbn [bind]. rewrite Hcd; cbn [coords out]. rewrite merge_coords_self by exact Hnd.
  cbn [bind]. rewrite Hmd; cbn [masks out]. rewrite merge_masks_nil_l; cbn [bind].
  exists vv. rewrite Hdd. change (op_val Mul) with Qmult. cbn [values].
  set (V := mkVar (dims vi) (zip_with Qmult (values vd) (zip_with Qmult (values vi) (values vt))) vv).
  rewrite (norm_term_midpoints_edges (mkDA (Dense V) (coords im) (masks im)) V
             e n eq_refl Hdi He Hde Hl Hve Hn).
  reflexivity.
Qed.

(** The wavelength term needs a wavelength coordinate of bin edges:
    without a direct beam, a point coordinate (one value per element, at
    least two elements) makes the final coordinate assignment fail with a
    [DimensionError], and inputs without a wavelength coordinate fail with
    a [KeyError]. *)
Theorem iofq_norm_wavelength_term_needs_edges
    (drop_variances_if_broadcast broadcast_with_upper_bound_variances :
       DataArray -> sizes -> result DataArray)
    (uncertainties : UncertaintyBroadcastMode) (im tf : DataArray) (vi vt : Var) (n : nat) :
  data im = Dense vi -> data tf = Dense vt -> dims vi = [("wavelength"%string, n)] ->
  dims vt = dims vi -> coords tf = coords im -> NoDup (map fst (coords im)) -> masks tf = [] ->
  (forall e, coord im "wavelength" = Ok e -> dims e = [("wavelength"%string, n)] ->
     List.length (values e) = n -> variances e = None -> 2 <= n ->
     iofq_norm_wavelength_term drop_variances_if_broadcast broadcast_with_upper_bound_variances
       im tf None uncertainties = Err DimensionError)
  /\ (assoc "wavelength" (coords im) = None ->
      iofq_norm_wavelength_term drop_variances_if_broadcast broadcast_with_upper_bound_variances
        im tf None uncertainties = Err KeyError).
Proof.
  intros Hi Ht Hdi Hdt Hc Hnd Hm.
  destruct (da_mul_same im tf vi vt Hi Ht Hdt Hc Hnd Hm) as [vv Hmul].
  unfold iofq_norm_wavelength_term. rewrite Hmul; cbn [bind]. split.
  - intros e He Hde Hl Hve Hn.
    exact (norm_term_midpoints_points
             (mkDA (Dense (mkVar (dims vi) (zip_with Qmult (values vi) (values vt)) vv))
                   (coords im) (masks im)) _ e n eq_refl Hdi He Hde Hl Hve Hn).
  - intros Ha. unfold coord; simpl. rewrite Ha. reflexivity.
Qed.

Definition x_monitor : DataArray :=
  mkDA (Dense (mkVar [("wavelength"%string, 2)] [4%Q; 6%Q] (Some [4%Q; 6%Q])))
       [("wavelength"%string, mkVar [("wavelength"%string, 3)] [1%Q; 2%Q; 3%Q] None)] [].

Definition x_fraction : DataArray :=
  mkDA (Dense (mkVar [("wavelength"%string, 2)] [(1#2)%Q; (3#4)%Q] None))
       [("wavelength"%string, mkVar [("wavelength"%string, 3)] [1%Q; 2%Q; 3%Q] None)] [].

Definition x_beam : DataArray :=
  mkDA (Dense (mkVar [("wavelength"%string, 2)] [2%Q; 3%Q] None))
       [("wavelength"%string, mkVar [("wavelength"%string, 3)] [1%Q; 2%Q; 3%Q] None)] [].

Definition x_points (d : DataArray) : DataArray :=
  mkDA (data d) [("wavelength"%string, mkVar [("wavelength"%string, 2)] [1%Q; 2%Q] None)] [].

Definition x_bare (d : DataArray) : DataArray := mkDA (data d) [] [].

Definition x_broadcast (x : DataArray) (_ : sizes) : result DataArray := Ok x.

Lemma iofq_norm_wavelength_term_no_direct_beam_witness :
  exists vv,
    iofq_norm_wavelength_term x_broadcast x_broadcast x_monitor x_fraction None upper_bound
    = Ok (mkDA (Dense (mkVar [("wavelength"%string, 2)] [(4 * (1#2))%Q; (6 * (3#4))%Q] vv))
               [("wavelength"%string, mkVar [("wavelength"%string, 2)] [(3#2)%Q; (5#2)%Q] None)] []).
Proof.
  destruct (iofq_norm_wavelength_term_no_direct_beam x_broadcast x_broadcast upper_bound
              x_monitor x_fraction
              (mkVar [("wavelength"%string, 2)] [4%Q; 6%Q] (Some [4%Q; 6%Q]))
              (mkVar [("wavelength"%string, 2)] [(1#2)%Q; (3#4)%Q] None)
              (mkVar [("wavelength"%string, 3)] [1%Q; 2%Q; 3%Q] None) 2
              eq_refl eq_refl eq_refl eq_refl eq_refl
              ltac:(simpl; repeat constructor; simpl; intuition discriminate)
              eq_refl eq_refl eq_refl eq_refl eq_refl ltac:(lia)) as [vv Hvv].
  exists vv. rewrite Hvv. vm_compute. reflexivity.
Defined.

Lemma iofq_norm_wavelength_term_fail_direct_beam_witness :
  exists vv,
    iofq_norm_wavelength_term x_broadcast x_broadcast x_monitor x_fraction (Some x_beam) fail
    = Ok (mkDA (Dense (mkVar [("wavelength"%string, 2)] [(2 * (4 * (1#2)))%Q; (3 * (6 * (3#4)))%Q] vv))
               [("wavelength"%string, mkVar [("wavelength"%string, 2)] [(3#2)%Q; (5#2)%Q] None)] []).
Proof.
  destruct (iofq_norm_wavelength_term_fail_direct_beam x_broadcast x_broadcast
              x_monitor x_fraction x_beam
              (mkVar [("wavelength"%string, 2)] [4%Q; 6%Q] (Some [4%Q; 6%Q]))
              (mkVar [("wavelength"%string, 2)] [(1#2)%Q; (3#4)%Q] None)
              (mkVar [("wavelength"%string, 2)] [2%Q; 3%Q] None)
              (mkVar [("wavelength"%string, 3)] [1%Q; 2%Q; 3%Q] None) 2
              eq_refl eq_refl eq_refl eq_refl eq_refl eq_refl eq_refl eq_refl
              ltac:(simpl; repeat constructor; simpl; intuition discriminate)
              eq_refl eq_refl eq_refl eq_refl eq_refl eq_refl ltac:(lia)) as [vv Hvv].
  exists vv. rewrite Hvv. vm_compute. reflexivity.
Defined.

Lemma iofq_norm_wavelength_term_needs_edges_witness :
  iofq_norm_wavelength_term x_broadcast x_broadcast (x_points x_monitor) (x_points x_fraction)
    None drop = Err DimensionError
  /\ iofq_norm_wavelength_term x_broadcast x_broadcast (x_bare x_monitor) (x_bare x_fraction) None drop
     = Err KeyError.
Proof.
  split.
  - apply (proj1 (iofq_norm_wavelength_term_needs_edges x_broadcast x_broadcast drop
             (x_points x_monitor) (x_points x_fraction)
             (mkVar [("wavelength"%string, 2)] [4%Q; 6%Q] (Some [4%Q; 6%Q]))
             (mkVar [("wavelength"%string, 2)] [(1#2)%Q; (3#4)%Q] None) 2
             eq_refl eq_refl eq_refl eq_refl eq_refl
             ltac:(simpl; repeat constructor; simpl; intuition discriminate) eq_refl)
             (mkVar [("wavelength"%string, 2)] [1%Q; 2%Q] None));
      [reflexivity | reflexivity | reflexivity | reflexivity | lia].
  - apply (proj2 (iofq_norm_wavelength_term_needs_edges x_broadcast x_broadcast drop
             (x_bare x_monitor) (x_bare x_fraction)
             (mkVar [("wavelength"%string, 2)] [4%Q; 6%Q] (Some [4%Q; 6%Q]))
             (mkVar [("wavelength"%string, 2)] [(1#2)%Q; (3#4)%Q] None) 2
             eq_refl eq_refl eq_refl eq_refl eq_refl ltac:(simpl; constructor) eq_refl)).
    reflexivity.
Defined.

(** ** Background subtraction and normalization *)

Lemma zip_with_diag {A C} (f : A -> A -> C) (l : list A) :
  zip_with f l l = map (fun x => f x x) l.
Proof. induction l as [|x l IH]; [reflexivity|]. unfold zip_with in *; simpl; f_equal; exact IH. Qed.


(** Arithmetic of two dense arrays of the same sizes fails with a
    [DatasetError] when they hold a coordinate of the same name with
    different contents. *)
Lemma da_binop_coord_mismatch (o : BinOp) (a b : DataArray) (va vb : Var) (k : string)
    (ca cb : Var) :
  data a = Dense va -> data b = Dense vb -> dims va = dims vb ->
  assoc k (coords a) = Some ca -> assoc k (coords b) = Some cb -> var_identical ca cb = false ->
  da_binop o a b = Err DatasetError.
Proof.
  intros Ha Hb Hd Hca Hcb Hid. unfold da_binop. rewrite Ha, Hb.
  destruct (var_binop_same_dims o va vb Hd) as [vv Hv]. rewrite Hv; cbn [bind].
  unfold merge_coords.
  replace (forallb _ (coords b)) with false; [reflexivity|]. symmetry.
  apply not_true_iff_false. intros Hall. rewrite forallb_forall in Hall.
  specialize (Hall (k, cb) (assoc_In k cb _ Hcb)). simpl in Hall.
  rewrite Hca, Hid in Hall. discriminate.
Qed.

Lemma bins_sum_dims (d : DataArray) :
  exists v, data (bins_sum d) = Dense v /\ dims v = da_dims d /\
            coords (bins_sum d) = coords d /\ masks (bins_sum d) = masks d.
Proof.
  destruct d as [[v|sz c] cs ms]; simpl.
  - exists v; auto.
  - eexists; repeat split.
Qed.


(** Sample and background on the same sizes holding a coordinate of the
    same name (e.g. the Q bin edges) with different contents are never
    subtracted: [subtract_background] fails with a [DatasetError]. *)
Theorem subtract_background_coord_mismatch (sample background : DataArray) (k : string)
    (cs cb : Var) :
  da_dims sample = da_dims background ->
  assoc k (coords sample) = Some cs -> assoc k (coords background) = Some cb ->
  var_identical cs cb = false ->
  subtract_background sample background = Err DatasetError.
Proof.
  intros Hd Hcs Hcb Hid. unfold subtract_background. rewrite !bins_sum_dense.
  destruct (bins_sum_dims sample) as [vs [Hvs [Hds [Hcs' _]]]].
  destruct (bins_sum_dims background) as [vb [Hvb [Hdb [Hcb' _]]]].
  apply (da_binop_coord_mismatch Sub _ _ vs vb k cs cb Hvs Hvb); [congruence | | | exact Hid].
  - rewrite Hcs'; exact Hcs.
  - rewrite Hcb'; exact Hcb.
Qed.

(** When the division is elementwise (a dense numerator, or a binned one
    with a denominator that has variances), [normalize] never divides
    arrays holding a coordinate of the same name with different contents:
    it fails with a [DatasetError]. *)
Theorem normalize_coord_mismatch (lookup_fill : Q) (numerator denominator : DataArray)
    (vd : Var) (k : string) (cn cd : Var) :
  data denominator = Dense vd ->
  is_binned numerator = false \/ has_variances denominator = true ->
  da_dims numerator = dims vd ->
  assoc k (coords numerator) = Some cn -> assoc k (coords denominator) = Some cd ->
  var_identical cn cd = false ->
  normalize lookup_fill numerator denominator = Err DatasetError.
Proof.
  intros Hd Hcase Hdims Hcn Hcd Hid. unfold normalize.
  assert (Hnum : exists vn, data (if has_variances denominator && is_binned numerator
                                  then bins_sum numerator else numerator) = Dense vn
                            /\ dims vn = da_dims numerator
                            /\ coords (if has_variances denominator && is_binned numerator
                                       then bins_sum numerator else numerator)
                               = coords numerator).
  { destruct (has_variances denominator && is_binned numerator) eqn:E.
    - destruct (bins_sum_dims numerator) as [v [H1 [H2 [H3 _]]]]; exists v; auto.
    - destruct Hcase as [Hb|Hv].
      + unfold is_binned in Hb; unfold da_dims.
        destruct (data numerator) as [v|sz c]; [exists v; auto | discriminate].
      + rewrite Hv in E; simpl in E. unfold is_binned in E; unfold da_dims.
        destruct (data numerator) as [v|sz c]; [exists v; auto | discriminate]. }
  destruct Hnum as [vn [Hvn [Hdn Hcn']]].
  assert (Hnb : is_binned (if has_variances denominator && is_binned numerator
                           then bins_sum numerator else numerator) = false)
    by (unfold is_binned at 1; rewrite Hvn; reflexivity).
  cbv zeta. rewrite Hnb. unfold da_div.
  apply (da_binop_coord_mismatch Div _ _ vn vd k cn cd Hvn Hd); [congruence | | exact Hcd | exact Hid].
  rewrite Hcn'; exact Hcn.
Qed.

Lemma mapM_Forall2 {A B} (f : A -> result B) (l : list A) (ys : list B) :
  mapM f l = Ok ys -> Forall2 (fun x y => f x = Ok y) l ys.
Proof.
  revert ys; induction l as [|x l IH]; intros ys H; simpl in H.
  - inversion H; constructor.
  - destruct (f x) as [y|e] eqn:Hf; cbn [bind] in H; [|discriminate].
    destruct (mapM f l) as [ys'|e]; cbn [bind] in H; [|discriminate].
    inversion H; subst ys. constructor; [exact Hf | apply IH; reflexivity].
Qed.

Lemma Forall2_combine_seq {A B} (R : nat * A -> B -> Prop) (l : list A) (ys : list B) (s : nat) :
  Forall2 R (combine (seq s (List.length l)) l) ys ->
  Forall2 (fun x y => exists i, R (i, x) y) l ys.
Proof.
  revert ys s; induction l as [|x l IH]; intros ys s H; simpl in H.
  - inversion H; constructor.
  - inversion H as [|p y ps ys' Hr Hrest]; subst.
    constructor; [exists s; exact Hr | exact (IH ys' (S s) Hrest)].
Qed.

(** Per-event normalization (a binned numerator and a denominator without
    variances) keeps the event structure: the result has the numerator's
    sizes, coordinates and masks, the same number of events in every bin,
    and each event is the numerator's event with its weight divided by a
    value and its variance by that value squared. *)
Theorem normalize_events_keep_structure (lookup_fill : Q) (numerator denominator r : DataArray)
    (sz : sizes) (cells : list (list Event)) :
  data numerator = Binned sz cells -> has_variances denominator = false ->
  normalize lookup_fill numerator denominator = Ok r ->
  coords r = coords numerator /\ masks r = masks numerator /\
  exists cells', data r = Binned sz cells' /\
    Forall2 (Forall2 (fun e e' => exists q, e' = ev_div e q)) cells cells'.
Proof.
  intros Hn Hv. unfold normalize. rewrite Hv; simpl.
  unfold is_binned at 1; rewrite Hn. unfold bins_div_lookup. rewrite Hn.
  destruct (data denominator) as [f|sz' c']; [|discriminate].
  destruct (coord denominator "Q") as [edges|e]; cbn [bind]; [|discriminate].
  destruct (rev (dims f)) as [|[d n] rest]; [discriminate|].
  destruct (String.eqb d "Q" && sizes_eqb sz (dims f)); [|discriminate].
  destruct (lookup_masked (dims f) (masks denominator)) as [masked|e]; cbn [bind]; [|discriminate].
  destruct (mapM _ (combine _ cells)) as [cells'|e] eqn:Hm; cbn [bind]; [|discriminate].
  intros H; inversion H; subst r; clear H. simpl.
  split; [reflexivity|]. split; [reflexivity|]. exists cells'; split; [reflexivity|].
  apply mapM_Forall2, Forall2_combine_seq in Hm.
  eapply Forall2_impl; [|exact Hm]. intros c c' [i Hc]. simpl in Hc.
  apply mapM_Forall2 in Hc. eapply Forall2_impl; [|exact Hc].
  intros e e' He. cbv beta in He. destruct (ev_coord e "Q") as [x|err]; cbn [bind] in He; [|discriminate].
  inversion He; eexists; reflexivity.
Qed.

(** A transmission run identical to the empty-beam run (the same incident
    and the same transmission monitor in both) gives a transmission fraction
    of exactly 1 wherever the monitors are nonzero. *)
Theorem transmission_fraction_same_runs (si st r : DataArray) (vi vt : Var) :
  data si = Dense vi -> data st = Dense vt -> dims vt = dims vi ->
  Forall (fun x => ~ (x == 0)%Q) (values vi) -> Forall (fun x => ~ (x == 0)%Q) (values vt) ->
  transmission_fraction si st si st = Ok r ->
  exists v, data r = Dense v /\ dims v = dims vt /\ Forall (fun y => (y == 1)%Q) (values v).
Proof.
  intros Hi Ht Hd Hzi Hzt Hr. unfold transmission_fraction in Hr.
  destruct (da_div st st) as [a|e] eqn:Ha; cbn [bind] in Hr; [|discriminate].
  destruct (da_div si si) as [b|e] eqn:Hb; cbn [bind] in Hr; [|discriminate].
  destruct (da_binop_dense Div st st a vt vt Ht Ht eq_refl Ha) as [va Hva].
  destruct (da_binop_dense Div si si b vi vi Hi Hi eq_refl Hb) as [vb Hvb].
  destruct (da_binop_dense Mul a b r _ _ Hva Hvb ltac:(simpl; exact Hd) Hr) as [vv Hvv].
  eexists; split; [exact Hvv|]. split; [reflexivity|]. simpl.
  rewrite !zip_with_diag. unfold zip_with. apply Forall_forall; intros y Hy.
  apply in_map_iff in Hy; destruct Hy as [[p q] [Hy Hin]]; simpl in Hy; subst y.
  pose proof (in_combine_l _ _ _ _ Hin) as Hp. pose proof (in_combine_r _ _ _ _ Hin) as Hq.
  apply in_map_iff in Hp; destruct Hp as [x [Hx Hxin]]; subst p.
  apply in_map_iff in Hq; destruct Hq as [z [Hz Hzin]]; subst q.
  rewrite Forall_forall in Hzi, Hzt. simpl.
  specialize (Hzt x Hxin). specialize (Hzi z Hzin). field. split; assumption.
Qed.

Definition x_q_edges (l : list Q) : list (string * Var) :=
  [("Q"%string, mkVar [("Q"%string, List.length l)] l None)].

Definition x_ev (q w : Q) : Event := mkEvent [("Q"%string, q)] w w.

Definition x_events : DataArray :=
  mkDA (Binned [("Q"%string, 2)] [[x_ev (1#2) 4; x_ev (1#4) 2]; [x_ev (3#2) 6]])
       (x_q_edges [0%Q; 1%Q; 2%Q]) [].


Lemma subtract_background_coord_mismatch_witness :
  subtract_background (q_hist [10%Q; 20%Q])
    (mkDA (data (q_hist [1%Q; 2%Q])) (x_q_edges [0%Q; 2%Q; 4%Q]) [])
  = Err DatasetError.
Proof.
  apply (subtract_background_coord_mismatch _ _ "Q"
           (mkVar [("Q"%string, 3)] [0%Q; 1%Q; 2%Q] None)
           (mkVar [("Q"%string, 3)] [0%Q; 2%Q; 4%Q] None)); reflexivity.
Defined.

Lemma normalize_coord_mismatch_witness :
  normalize 0%Q (q_hist [6%Q; 8%Q]) (mkDA (data (q_hist [3%Q; 4%Q])) (x_q_edges [0%Q; 2%Q; 4%Q]) [])
  = Err DatasetError.
Proof.
  apply (normalize_coord_mismatch 0%Q _ _ (mkVar [("Q"%string, 2)] [3%Q; 4%Q] None) "Q"
           (mkVar [("Q"%string, 3)] [0%Q; 1%Q; 2%Q] None)
           (mkVar [("Q"%string, 3)] [0%Q; 2%Q; 4%Q] None)); try reflexivity.
  left; reflexivity.
Defined.

Lemma normalize_events_keep_structure_witness :
  exists r, normalize 0%Q x_events (q_hist [2%Q; 3%Q]) = Ok r /\
    coords r = coords x_events /\ masks r = masks x_events /\
    exists cells', data r = Binned [("Q"%string, 2)] cells' /\
      Forall2 (Forall2 (fun e e' => exists q, e' = ev_div e q))
              [[x_ev (1#2) 4; x_ev (1#4) 2]; [x_ev (3#2) 6]] cells'.
Proof.
  eexists; split; [vm_compute; reflexivity|].
  apply (normalize_events_keep_structure 0%Q x_events (q_hist [2%Q; 3%Q]) _
           [("Q"%string, 2)] [[x_ev (1#2) 4; x_ev (1#4) 2]; [x_ev (3#2) 6]]);
    [reflexivity | reflexivity | vm_compute; reflexivity].
Defined.

Lemma transmission_fraction_same_runs_witness :
  exists r, transmission_fraction x_monitor x_beam x_monitor x_beam = Ok r /\
    exists v, data r = Dense v /\ dims v = [("wavelength"%string, 2)] /\
              Forall (fun y => (y == 1)%Q) (values v).
Proof.
  eexists; split; [vm_compute; reflexivity|].
  apply (transmission_fraction_same_runs x_monitor x_beam _
           (mkVar [("wavelength"%string, 2)] [4%Q; 6%Q] (Some [4%Q; 6%Q]))
           (mkVar [("wavelength"%string, 2)] [2%Q; 3%Q] None)); try reflexivity;
    repeat constructor; intro H; vm_compute in H; discriminate.
Defined.

(** ** Direct-beam resampling *)

Lemma nth_map_lt {A B} (f : A -> B) (l : list A) (k : nat) (d : B) (d' : A) :
  k < List.length l -> nth k (map f l) d = f (nth k l d').
Proof.
  intros Hk. rewrite (nth_indep (map f l) d (f d')) by (rewrite length_map; exact Hk).
  apply map_nth.
Qed.











(** ** Spectrum merging *)

Lemma to_q_bins_not_1d (q : Var) :
  (forall d n, dims q <> [(d, n)]) -> to_q_bins (QEdges q) = Err DimensionError.
Proof.
  intros H. unfold to_q_bins, var_dim.
  destruct (dims q) as [|[d n] [|p rest]] eqn:E; try reflexivity.
  exfalso; exact (H d n eq_refl).
Qed.

Lemma fold_bands_err (wb : Var) (e : PyErr) : fold_bands wb = Err e -> e = DimensionError.
Proof.
  unfold fold_bands. destruct (dims wb) as [|[d n] [|p rest]]; try discriminate.
  destruct (String.eqb d "wavelength"); [discriminate|]. intros H; inversion H; reflexivity.
Qed.

(** Q bin edges given as a variable that is not 1-d are refused:
    [merge_spectra] fails with a [DimensionError], for event and dense data,
    with or without wavelength bands. *)
Theorem merge_spectra_q_edges_not_1d (auto_edges : nat -> list Q -> list Q)
    (set_pop : list string -> result string) (data_q : DataArray) (q : Var)
    (wavelength_bands : option Var) (final_dims : option (list string)) :
  (forall d n, dims q <> [(d, n)]) ->
  merge_spectra auto_edges set_pop data_q (QEdges q) wavelength_bands final_dims
  = Err DimensionError.
Proof.
  intros Hq. pose proof (to_q_bins_not_1d q Hq) as Ht. unfold merge_spectra.
  destruct wavelength_bands as [wb|]; cbn [bind].
  - destruct (Nat.eqb (List.length (dims wb)) 1).
    + destruct (fold_bands wb) as [w|e] eqn:Hf; cbn [bind].
      * unfold is_binned, events_merge_spectra, dense_merge_spectra.
        destruct (data data_q); cbn [bind]; rewrite Ht; reflexivity.
      * rewrite (fold_bands_err _ _ Hf); reflexivity.
    + unfold is_binned, events_merge_spectra, dense_merge_spectra.
      destruct (data data_q); cbn [bind]; rewrite Ht; reflexivity.
  - unfold is_binned, events_merge_spectra, dense_merge_spectra.
    destruct (data data_q); cbn [bind]; rewrite Ht; reflexivity.
Qed.

Lemma Forall2_nth_lt {A B} (R : A -> B -> Prop) (l1 : list A) (l2 : list B) (j : nat)
    (d1 : A) (d2 : B) :
  Forall2 R l1 l2 -> j < List.length l2 -> R (nth j l1 d1) (nth j l2 d2).
Proof.
  intros H; revert j; induction H as [|x y l1 l2 Hxy _ IH]; intros j Hj; simpl in Hj; [lia|].
  destruct j as [|j]; simpl; [exact Hxy | apply IH; lia].
Qed.

(** The cell at flat index [q * nb + r] of bins concatenated from rows of
    [nb] cells each is cell [r] of row [q]. *)
Lemma nth_concat_rows_qr {A} (rows : list (list (list A))) (nb q r : nat) :
  r < nb -> Forall (fun l => List.length l = nb) rows ->
  nth (nb * q + r) (List.concat rows) [] = nth r (nth q rows []) [].
Proof.
  intros Hr Hrows. revert q; induction Hrows as [|l rows Hl _ IH]; intros q; simpl.
  - destruct (nb * q + r); destruct q; destruct r; reflexivity.
  - destruct q as [|q].
    + rewrite Nat.mul_0_r, Nat.add_0_l, app_nth1 by lia. reflexivity.
    + rewrite app_nth2 by lia. rewrite Hl.
      replace (nb * S q + r - nb) with (nb * q + r) by lia. apply IH.
Qed.

Lemma Forall2_Forall_r {A B} (R : A -> B -> Prop) (P : B -> Prop) (l1 : list A) (l2 : list B) :
  Forall2 R l1 l2 -> (forall x y, R x y -> P y) -> Forall P l2.
Proof. intros H HP; induction H; constructor; eauto. Qed.

(** The cell at flat index [k] of bins concatenated from rows of [nb]
    cells each is cell [k mod nb] of row [k / nb]. *)
Lemma nth_concat_rows {A} (rows : list (list (list A))) (nb k : nat) :
  0 < nb -> Forall (fun l => List.length l = nb) rows ->
  nth k (List.concat rows) [] = nth (k mod nb) (nth (k / nb) rows []) [].
Proof.
  intros Hnb Hrows. rewrite (Nat.div_mod_eq k nb) at 1.
  apply nth_concat_rows_qr; [apply Nat.mod_upper_bound; lia | exact Hrows].
Qed.

Lemma bin_cell_spec (dim : string) (edges : list Q) (c : list Event) (l : list (list Event)) :
  bin_cell dim edges c = Ok l ->
  List.length l = List.length edges - 1 /\
  forall k e, In e (nth k l []) ->
    In e c /\ exists x, ev_coord e dim = Ok x /\ in_bin edges k x = true.
Proof.
  unfold bin_cell. destruct (mapM _ c) as [xs|err] eqn:Hm; cbn [bind]; [|discriminate].
  intros H; inversion H; subst l; clear H. split; [rewrite length_map, length_seq; reflexivity|].
  intros k e He.
  destruct (Nat.lt_ge_cases k (List.length edges - 1)) as [Hk|Hk].
  - rewrite (nth_map_lt _ _ k [] 0) in He by (rewrite length_seq; exact Hk).
    rewrite seq_nth in He by exact Hk. simpl in He.
    apply in_map_iff in He; destruct He as [p [Hp Hin]]; subst e.
    apply filter_In in Hin; destruct Hin as [Hin Hb].
    apply mapM_in in Hm; destruct Hm as [_ Hm]. destruct (Hm p Hin) as [e' [He' Hf]].
    destruct (ev_coord e' dim) as [x|err] eqn:Hx; cbn [bind] in Hf; [|discriminate].
    inversion Hf; subst p; simpl in *. split; [exact He'|]. exists x; split; assumption.
  - rewrite nth_overflow in He by (rewrite length_map, length_seq; exact Hk). destruct He.
Qed.

Lemma bin_binned_edges (auto_edges : nat -> list Q -> list Q) (sz : sizes)
    (cells : list (list Event)) (dim : string) (edges : list Q) (q : Payload) :
  bin_binned auto_edges (Binned sz cells) dim (ByEdges edges) = Ok q ->
  2 <= List.length edges /\
  exists rows, q = Binned (sz ++ [(dim, List.length edges - 1)]) (List.concat rows)
               /\ Forall2 (fun c l => bin_cell dim edges c = Ok l) cells rows.
Proof.
  unfold bin_binned. destruct (mem dim (dim_names sz)); [discriminate|].
  destruct (mapM _ _) as [all|e]; cbn [bind]; [|discriminate].
  destruct (Nat.leb_spec 2 (List.length edges)) as [H2|H2]; [|discriminate].
  destruct (mapM _ cells) as [rows|e] eqn:Hm; cbn [bind]; [|discriminate].
  intros H; inversion H; subst q. split; [exact H2|].
  exists rows; split; [reflexivity | apply mapM_Forall2; exact Hm].
Qed.

(** Merging event data over Q edges without wavelength bands: the result
    has the final dims of the input, in their order, followed by the Q dim
    with one bin per pair of consecutive edges (dims of length 1 dropped);
    every event of the cell at flat index [i] is an event of the input whose
    Q coordinate lies in Q bin [i mod nb], [nb] the number of Q bins. *)
Theorem merge_spectra_events_in_q_bins (auto_edges : nat -> list Q -> list Q)
    (set_pop : list string -> result string) (data_q : DataArray) (q : Var) (qd : string)
    (k : nat) (final_dims : option (list string)) (sz : sizes) (cells : list (list Event))
    (p : Payload) :
  data data_q = Binned sz cells -> dims q = [(qd, k)] ->
  merge_spectra auto_edges set_pop data_q (QEdges q) None final_dims = Ok p ->
  let fd := match final_dims with None => ["Q"%string] | Some f => f end in
  let nb := List.length (values q) - 1 in
  exists cells',
    p = Binned (squeeze_sizes (filter (fun s => negb (mem (fst s)
                                (filter (fun d => negb (mem d fd)) (dim_names sz)))) sz
                               ++ [(qd, nb)])) cells'
    /\ forall i e, In e (nth i cells' []) ->
         In e (List.concat cells) /\
         exists x, ev_coord e qd = Ok x /\ in_bin (values q) (i mod nb) x = true.
Proof.
  intros Hd Hq. unfold merge_spectra. cbn [bind]. unfold is_binned at 1. rewrite Hd.
  unfold events_merge_spectra. rewrite Hd.
  unfold to_q_bins, var_dim. rewrite Hq. cbn [bind fst snd].
  destruct (bin_binned auto_edges _ qd (ByEdges (values q))) as [qb|err] eqn:Hb; cbn [bind];
    [|discriminate].
  intros H; inversion H; subst p; clear H.
  set (ds := filter (fun d => negb (mem d match final_dims with
                                          | Some f => f | None => ["Q"%string] end))
                    (dim_names sz)) in *.
  pose proof (eq_refl (bins_concat sz cells ds)) as Hbc.
  unfold bins_concat in Hb at 1. cbv zeta in Hb.
  set (kcells := map _ (seq 0 _)) in Hb.
  destruct (bin_binned_edges _ _ _ _ _ _ Hb) as [H2 [rows [Hqb Hrows]]]. subst qb.
  exists (List.concat rows). split; [reflexivity|].
  intros i e He.
  assert (Hnb : 0 < List.length (values q) - 1) by lia.
  assert (Hlen : Forall (fun l => List.length l = List.length (values q) - 1) rows).
  { apply (Forall2_Forall_r _ _ _ _ Hrows). intros c l Hcl. apply (bin_cell_spec _ _ _ _ Hcl). }
  rewrite (nth_concat_rows rows _ i Hnb Hlen) in He.
  destruct (Nat.lt_ge_cases (i / (List.length (values q) - 1)) (List.length rows)) as [Hj|Hj].
  - pose proof (Forall2_nth_lt _ _ _ _ [] [] Hrows Hj) as Hc.
    destruct (bin_cell_spec _ _ _ _ Hc) as [_ Hspec].
    destruct (Hspec _ _ He) as [Hin Hx]. split; [|exact Hx].
    apply (bins_concat_events sz cells ds _ kcells e Hbc).
    apply in_concat; eexists; split; [|exact Hin].
    apply nth_In. rewrite (Forall2_length Hrows); exact Hj.
  - rewrite (nth_overflow rows) in He by exact Hj.
    destruct (_ mod _); destruct He.
Qed.

Definition x_auto_edges (n : nat) (_ : list Q) : list Q := map (fun i => inject_Z (Z.of_nat i)) (seq 0 (S n)).

Definition x_pop (l : list string) : result string :=
  match l with d :: _ => Ok d | [] => Err KeyError end.

Definition x_spectra : DataArray :=
  mkDA (Binned [("spectrum"%string, 2)] [[x_ev (1#2) 4; x_ev (5#2) 2]; [x_ev (3#2) 6; x_ev 5 1]])
       [] [].

Definition x_q_var : Var := mkVar [("Q"%string, 4)] [0%Q; 1%Q; 2%Q; 3%Q] None.

Lemma merge_spectra_q_edges_not_1d_witness :
  merge_spectra x_auto_edges x_pop x_spectra
    (QEdges (mkVar [("Q"%string, 2); ("spectrum"%string, 2)] [0%Q; 1%Q; 0%Q; 2%Q] None))
    None None = Err DimensionError.
Proof.
  apply merge_spectra_q_edges_not_1d. intros d n H; inversion H.
Defined.

Lemma merge_spectra_events_in_q_bins_witness :
  exists p, merge_spectra x_auto_edges x_pop x_spectra (QEdges x_q_var) None None = Ok p /\
    exists cells',
      p = Binned [("Q"%string, 3)] cells' /\
      forall i e, In e (nth i cells' []) ->
        In e (List.concat [[x_ev (1#2) 4; x_ev (5#2) 2]; [x_ev (3#2) 6; x_ev 5 1]]) /\
        exists x, ev_coord e "Q" = Ok x /\ in_bin [0%Q; 1%Q; 2%Q; 3%Q] (i mod 3) x = true.
Proof.
  eexists; split; [vm_compute; reflexivity|].
  apply (merge_spectra_events_in_q_bins x_auto_edges x_pop x_spectra x_q_var "Q" 4 None
           [("spectrum"%string, 2)] [[x_ev (1#2) 4; x_ev (5#2) 2]; [x_ev (3#2) 6; x_ev 5 1]]);
    [reflexivity | reflexivity | vm_compute; reflexivity].
Defined.

(** ** Monitor preprocessing *)

(** A non-background range that is not 1-d is refused before anything
    else: [preprocess_monitor_data] fails with a [DimensionError] in every
    uncertainty mode. *)
Theorem preprocess_monitor_data_range_not_1d
    (mask_range : DataArray -> DataArray -> result DataArray) (mean : DataArray -> result DataArray)
    (hist_wavelength rebin_wavelength : DataArray -> Var -> result DataArray)
    (broadcast_with_upper_bound_variances : DataArray -> sizes -> result DataArray)
    (monitor : DataArray) (wavelength_bins r : Var) (uncertainties : UncertaintyBroadcastMode) :
  (forall d n, dims r <> [(d, n)]) ->
  preprocess_monitor_data mask_range mean hist_wavelength rebin_wavelength
    broadcast_with_upper_bound_variances monitor wavelength_bins (Some r) uncertainties
  = Err DimensionError.
Proof.
  intros Hr. unfold preprocess_monitor_data, range_mask, var_dim.
  destruct (dims r) as [|[d n] [|p rest]]; try reflexivity.
  exfalso; exact (Hr d n eq_refl).
Qed.

Definition x_fail_mask (_ : DataArray) (_ : DataArray) : result DataArray := Err Unmodelled.
Definition x_mean (d : DataArray) : result DataArray := Ok d.
Definition x_rebin (d : DataArray) (_ : Var) : result DataArray := Ok d.

Lemma preprocess_monitor_data_range_not_1d_witness :
  preprocess_monitor_data x_fail_mask x_mean x_rebin x_rebin x_broadcast x_monitor
    (mkVar [("wavelength"%string, 3)] [1%Q; 2%Q; 3%Q] None)
    (Some (mkVar [] [1%Q] None)) fail
  = Err DimensionError.
Proof.
  apply preprocess_monitor_data_range_not_1d. intros d n H; inversion H.
Defined.

(** ** Conservation of events in [merge_spectra] *)























